(** * gen_bc6h_parser: the BC6H bit-layout generator

    A shallow embedding of [helpers/gen_bc6h_parser.py].  The script walks the
    table [MODEREF] line by line, matches every comma-separated element
    against one regular expression and prints, per mode, the C statements that
    pull the endpoint bits out of a block.

    Conventions of the embedding:
    - Python [str] is [string]; the model is exact on 7-bit text (characters
      above 127 are treated as ordinary characters that are neither word
      characters, digits nor white space, where the interpreter knows more
      of each kind).  A statement whose subject is what these classes
      refuse carries the hypothesis [seven_bit].
    - Python [int] is [Z] (unbounded; the interpreter's optional limit on the
      number of digits accepted by [int(str)] is not modelled).
    - [print] appends a [Line] to the output; an uncaught exception stops the
      script and leaves what was printed so far. *)

From Stdlib Require Import String Ascii List ZArith Lia Bool Sorted.
From Stdlib Require Import DecimalString.
Import ListNotations.

Local Open Scope string_scope.
Local Open Scope list_scope.
Local Open Scope Z_scope.

(* ================================================================== *)
(** ** Python string primitives *)

Module Py.

Definition in_range (lo hi : nat) (c : ascii) : bool :=
  (lo <=? nat_of_ascii c)%nat && (nat_of_ascii c <=? hi)%nat.

(** [str.isspace] on 7-bit characters: TAB, LF, VT, FF, CR, FS, GS, RS, US
    and the blank. *)
Definition isspace (c : ascii) : bool :=
  in_range 9 13 c || in_range 28 32 c.

(** The line boundaries of [str.splitlines] among the 7-bit characters: LF,
    VT, FF, CR, FS, GS, RS (CR LF counts once). *)
Definition is_linebreak (c : ascii) : bool :=
  in_range 10 13 c || in_range 28 30 c.

(** [\d] on 7-bit characters. *)
Definition is_digit (c : ascii) : bool := in_range 48 57 c.

(** [\w] on 7-bit characters: letters, digits and the underscore. *)
Definition is_word (c : ascii) : bool :=
  in_range 97 122 c || in_range 65 90 c || is_digit c || (c =? "_")%char.

Definition digit_val (c : ascii) : Z := Z.of_nat (nat_of_ascii c) - 48.

Definition snoc (s : string) (c : ascii) : string := (s ++ String c "")%string.

Definition is_empty (s : string) : bool :=
  match s with "" => true | _ => false end.

(** [str.splitlines()]; [after_cr] remembers that the previous character was
    a CR, so that the LF of a CR LF pair is swallowed. *)
Fixpoint splitlines_go (after_cr : bool) (cur s : string) : list string :=
  match s with
  | "" => if is_empty cur then [] else [cur]
  | String c s' =>
      if after_cr && (c =? "010")%char then splitlines_go false cur s'
      else if is_linebreak c
           then cur :: splitlines_go (c =? "013")%char "" s'
           else splitlines_go false (snoc cur c) s'
  end.

Definition splitlines (s : string) : list string := splitlines_go false "" s.

Fixpoint lstrip (s : string) : string :=
  match s with
  | String c s' => if isspace c then lstrip s' else s
  | "" => ""
  end.

Fixpoint rstrip (s : string) : string :=
  match s with
  | String c s' =>
      let r := rstrip s' in
      if isspace c && is_empty r then "" else String c r
  | "" => ""
  end.

(** [str.strip()] *)
Definition strip (s : string) : string := rstrip (lstrip s).

(** [str.split()] without argument: runs of white space separate, no empty
    piece is returned. *)
Fixpoint split_go (cur s : string) : list string :=
  match s with
  | "" => if is_empty cur then [] else [cur]
  | String c s' =>
      if isspace c
      then (if is_empty cur then split_go "" s' else cur :: split_go "" s')
      else split_go (snoc cur c) s'
  end.

Definition split (s : string) : list string := split_go "" s.

(** [str.split(sep)] for a one-character separator: every separator cuts,
    empty pieces are kept. *)
Fixpoint split_on_go (sep : ascii) (cur s : string) : list string :=
  match s with
  | "" => [cur]
  | String c s' =>
      if (c =? sep)%char then cur :: split_on_go sep "" s'
      else split_on_go sep (snoc cur c) s'
  end.

Definition split_on (sep : ascii) (s : string) : list string :=
  split_on_go sep "" s.

(** The digits of an [int] literal as [int(str)] reads them: decimal digits,
    single underscores allowed between two digits. *)
Fixpoint int_digits (acc : Z) (after_digit : bool) (s : string) : option Z :=
  match s with
  | "" => if after_digit then Some acc else None
  | String c s' =>
      if is_digit c then int_digits (10 * acc + digit_val c) true s'
      else if (c =? "_")%char && after_digit then int_digits acc false s'
      else None
  end.

(** The white space [int] drops around a number in 7-bit text: TAB, LF, VT,
    FF, CR and the blank (not FS, GS, RS, US, which [str.strip] drops). *)
Definition int_space (c : ascii) : bool :=
  in_range 9 13 c || (c =? " ")%char.

Fixpoint int_lstrip (s : string) : string :=
  match s with
  | String c s' => if int_space c then int_lstrip s' else s
  | "" => ""
  end.

Fixpoint int_rstrip (s : string) : string :=
  match s with
  | String c s' =>
      let r := int_rstrip s' in
      if int_space c && is_empty r then "" else String c r
  | "" => ""
  end.

(** [int(s)]: surrounding white space is dropped, one sign is allowed;
    [None] stands for the [ValueError]. *)
Definition int (s : string) : option Z :=
  match int_rstrip (int_lstrip s) with
  | String "+" r => int_digits 0 false r
  | String "-" r => option_map Z.opp (int_digits 0 false r)
  | r => int_digits 0 false r
  end.

(** [str(n)] / [%u] / [{}] of an [int]. *)
Definition str (n : Z) : string := NilZero.string_of_int (Z.to_int n).

End Py.

(* ================================================================== *)
(** ** A backtracking matcher for the regular expressions the script uses *)

Module Re.

(** The fragment of [re] syntax that occurs in the pattern: a character
    class, concatenation, the greedy [?], the greedy [+] of a class, and
    numbered capturing groups. *)
Inductive re : Type :=
| Cls (p : ascii -> bool)
| Cat (r1 r2 : re)
| Opt (r : re)
| Plus (p : ascii -> bool)
| Grp (n : nat) (r : re).

Definition Lit (c : ascii) : re := Cls (Ascii.eqb c).

(** Captures: group number and matched text, most recent first. *)
Definition captures := list (nat * string).

Fixpoint lookup (n : nat) (cs : captures) : option string :=
  match cs with
  | [] => None
  | (k, t) :: cs' => if Nat.eqb k n then Some t else lookup n cs'
  end.

(** Greedy [p*] in continuation-passing style: take as many characters as
    possible, give them back one at a time while the continuation fails. *)
Fixpoint many {R} (p : ascii -> bool) (s : string)
         (k : string -> string -> option R) : option R :=
  match s with
  | String c s' =>
      if p c
      then match many p s' (fun t rest => k (String c t) rest) with
           | Some r => Some r
           | None => k "" s
           end
      else k "" s
  | "" => k "" s
  end.

(** [exec r s cs k]: match [r] at the start of [s]; the continuation gets the
    matched text, the remaining input and the captures, and its failure makes
    the matcher backtrack. *)
Fixpoint exec {R} (r : re) (s : string) (cs : captures)
         (k : string -> string -> captures -> option R) : option R :=
  match r with
  | Cls p =>
      match s with
      | String c s' => if p c then k (String c "") s' cs else None
      | "" => None
      end
  | Cat r1 r2 =>
      exec r1 s cs (fun t1 s1 cs1 =>
        exec r2 s1 cs1 (fun t2 s2 cs2 => k (t1 ++ t2)%string s2 cs2))
  | Opt r1 =>
      match exec r1 s cs k with
      | Some x => Some x
      | None => k "" s cs
      end
  | Plus p =>
      match s with
      | String c s' =>
          if p c then many p s' (fun t rest => k (String c t) rest cs)
          else None
      | "" => None
      end
  | Grp n r1 =>
      exec r1 s cs (fun t s' cs' => k t s' ((n, t) :: cs'))
  end.

(** [re.match(pattern, s)]: anchored at the start only; the result is the
    match object, here its captures. *)
Definition rmatch (r : re) (s : string) : option captures :=
  exec r s [] (fun _ _ cs => Some cs).

(** [m.group(n)] for [n >= 1]: [None] when the group took no part. *)
Definition group (m : captures) (n : nat) : option string := lookup n m.

End Re.

(* ================================================================== *)
(** ** The script *)

(** The exceptions the script can die of. *)
Inductive exn : Type :=
| AssertionError   (* [assert m] *)
| ValueError.      (* [int(...)] of a non-number, unpacking [line.split()] *)

Inductive result (A : Type) : Type :=
| Ok (a : A)
| Raise (e : exn).
Arguments Ok {A} a.
Arguments Raise {A} e.

(** The dictionary [data], once all the keys [FORMAT] names are set. *)
Record Data : Type := mkData {
  channel : string;
  offset : Z;
  endpoint : Z;
  numbits : Z;
  firstbit : Z
}.

Definition with_offset (v : Z) (d : Data) : Data :=
  mkData (channel d) v (endpoint d) (numbits d) (firstbit d).
Definition with_numbits (v : Z) (d : Data) : Data :=
  mkData (channel d) (offset d) (endpoint d) v (firstbit d).
Definition with_firstbit (v : Z) (d : Data) : Data :=
  mkData (channel d) (offset d) (endpoint d) (numbits d) v.

(** What one [print] call writes. *)
Inductive Line : Type :=
| SwitchMode                 (* switch(mode) *)
| OpenBrace                  (* { *)
| CaseLabel (mode : Z)       (* case %u: *)
| BeginReverse               (* /* begin reverse read */ *)
| Extract (d : Data)         (* INDENT + FORMAT.format( **data) *)
| EndReverse                 (* /* end reverse read */ *)
| Break                      (* break; *)
| CloseBrace.                (* } *)

Definition INDENT : string := "    ".

Definition FORMAT (d : Data) : string :=
  ("colors[" ++ Py.str (endpoint d) ++ "].c." ++ channel d
   ++ " |= TCTEX_H_GETBITS(bdata, " ++ Py.str (offset d) ++ ", "
   ++ Py.str (numbits d) ++ ") << " ++ Py.str (firstbit d) ++ ";")%string.

Definition render (l : Line) : string :=
  match l with
  | SwitchMode => "switch(mode)"
  | OpenBrace => "{"
  | CaseLabel mode => ("case " ++ Py.str mode ++ ":")%string
  | BeginReverse => (INDENT ++ "/* begin reverse read */")%string
  | Extract d => (INDENT ++ FORMAT d)%string
  | EndReverse => (INDENT ++ "/* end reverse read */")%string
  | Break => (INDENT ++ "break;")%string
  | CloseBrace => "}"
  end.

(** *** Output and exceptions: a writer over an error monad *)

Definition M (A : Type) : Type := (list Line * result A)%type.

Definition ret {A} (a : A) : M A := ([], Ok a).

Definition bind {A B} (c : M A) (f : A -> M B) : M B :=
  match c with
  | (out, Ok a) => let (out', r) := f a in (out ++ out', r)
  | (out, Raise e) => (out, Raise e)
  end.

Definition print (l : Line) : M unit := ([l], Ok tt).
Definition raise {A} (e : exn) : M A := ([], Raise e).

Notation "x <- c1 ;; c2" := (bind c1 (fun x => c2))
  (at level 61, c1 at next level, right associativity).
Notation "c1 ;; c2" := (bind c1 (fun _ => c2))
  (at level 61, right associativity).

(** [for x in xs: body(x)] for a body that only prints or raises. *)
Fixpoint for_each {A} (xs : list A) (body : A -> M unit) : M unit :=
  match xs with
  | [] => ret tt
  | x :: xs' => body x ;; for_each xs' body
  end.

(** [for x in xs: st = body(st, x)]: a loop that threads the variables the
    body assigns. *)
Fixpoint for_fold {A S} (xs : list A) (body : S -> A -> M S) (st : S) : M S :=
  match xs with
  | [] => ret st
  | x :: xs' => st' <- body st x ;; for_fold xs' body st'
  end.

(** [range(n)] *)
Definition range (n : Z) : list Z := map Z.of_nat (seq 0 (Z.to_nat n)).

(** [int(s)] with its [ValueError]. *)
Definition py_int (s : string) : M Z :=
  match Py.int s with
  | Some z => ret z
  | None => raise ValueError
  end.

(** *** The table and the pattern *)

Definition MODEREF : string := "
0  m[1:0],g2[4],b2[4],b3[4],r0[9:0],g0[9:0],b0[9:0],r1[4:0],g3[4],g2[3:0],g1[4:0],b3[0],g3[3:0],b1[4:0],b3[1],b2[3:0],r2[4:0],b3[2],r3[4:0],b3[3]
1  m[1:0],g2[5],g3[4],g3[5],r0[6:0],b3[0],b3[1],b2[4],g0[6:0],b2[5],b3[2],g2[4],b0[6:0],b3[3],b3[5],b3[4],r1[5:0],g2[3:0],g1[5:0],g3[3:0],b1[5:0],b2[3:0],r2[5:0],r3[5:0]
2  m[4:0],r0[9:0],g0[9:0],b0[9:0],r1[4:0],r0[10],g2[3:0],g1[3:0],g0[10],b3[0],g3[3:0],b1[3:0],b0[10],b3[1],b2[3:0],r2[4:0],b3[2],r3[4:0],b3[3]
6  m[4:0],r0[9:0],g0[9:0],b0[9:0],r1[3:0],r0[10],g3[4],g2[3:0],g1[4:0],g0[10],g3[3:0],b1[3:0],b0[10],b3[1],b2[3:0],r2[3:0],b3[0],b3[2],r3[3:0],g2[4],b3[3]
10 m[4:0],r0[9:0],g0[9:0],b0[9:0],r1[3:0],r0[10],b2[4],g2[3:0],g1[3:0],g0[10],b3[0],g3[3:0],b1[4:0],b0[10],b2[3:0],r2[3:0],b3[1],b3[2],r3[3:0],b3[4],b3[3]
14 m[4:0],r0[8:0],b2[4],g0[8:0],g2[4],b0[8:0],b3[4],r1[4:0],g3[4],g2[3:0],g1[4:0],b3[0],g3[3:0],b1[4:0],b3[1],b2[3:0],r2[4:0],b3[2],r3[4:0],b3[3]
18 m[4:0],r0[7:0],g3[4],b2[4],g0[7:0],b3[2],g2[4],b0[7:0],b3[3],b3[4],r1[5:0],g2[3:0],g1[4:0],b3[0],g3[3:0],b1[4:0],b3[1],b2[3:0],r2[5:0],r3[5:0]
22 m[4:0],r0[7:0],b3[0],b2[4],g0[7:0],g2[5],g2[4],b0[7:0],g3[5],b3[4],r1[4:0],g3[4],g2[3:0],g1[5:0],g3[3:0],b1[4:0],b3[1],b2[3:0],r2[4:0],b3[2],r3[4:0],b3[3]
26 m[4:0],r0[7:0],b3[1],b2[4],g0[7:0],b2[5],g2[4],b0[7:0],b3[5],b3[4],r1[4:0],g3[4],g2[3:0],g1[4:0],b3[0],g3[3:0],b1[5:0],b2[3:0],r2[4:0],b3[2],r3[4:0],b3[3]
30 m[4:0],r0[5:0],g3[4],b3[0],b3[1],b2[4],g0[5:0],g2[5],b2[5],b3[2],g2[4],b0[5:0],g3[5],b3[3],b3[5],b3[4],r1[5:0],g2[3:0],g1[5:0],g3[3:0],b1[5:0],b2[3:0],r2[5:0],r3[5:0]
3  m[4:0],r0[9:0],g0[9:0],b0[9:0],r1[9:0],g1[9:0],b1[9:0]
7  m[4:0],r0[9:0],g0[9:0],b0[9:0],r1[8:0],r0[10],g1[8:0],g0[10],b1[8:0],b0[10]
11 m[4:0],r0[9:0],g0[9:0],b0[9:0],r1[7:0],r0[10:11],g1[7:0],g0[10:11],b1[7:0],b0[10:11]
15 m[4:0],r0[9:0],g0[9:0],b0[9:0],r1[3:0],r0[10:15],g1[3:0],g0[10:15],b1[3:0],b0[10:15]
".

(** [r'(\w)(\d?)\[(\d+)(?::(\d+))?\]'] *)
Definition FIELD_RE : Re.re :=
  Re.Cat (Re.Grp 1 (Re.Cls Py.is_word))
 (Re.Cat (Re.Grp 2 (Re.Opt (Re.Cls Py.is_digit)))
 (Re.Cat (Re.Lit "[")
 (Re.Cat (Re.Grp 3 (Re.Plus Py.is_digit))
 (Re.Cat (Re.Opt (Re.Cat (Re.Lit ":") (Re.Grp 4 (Re.Plus Py.is_digit))))
         (Re.Lit "]"))))).

(** The text of a group that took part in the match. *)
Definition text (g : option string) : string :=
  match g with Some t => t | None => "" end.

(** Truth value of [m.group(n)]: [None] and the empty string are false. *)
Definition truthy (g : option string) : bool :=
  match g with Some t => negb (Py.is_empty t) | None => false end.

(** *** The loops *)

(** The body of [for assign in assigns]; [cursor] is the variable [offset]
    on entry, the value returned is [offset] on exit. *)
Definition compile_assign (cursor : Z) (assign : string) : M Z :=
  match Re.rmatch FIELD_RE assign with
  | None => raise AssertionError
  | Some m =>
      let data_channel := text (Re.group m 1) in
      let data_offset := cursor in
      head <- py_int (text (Re.group m 3)) ;;
      tail <- (if truthy (Re.group m 4)
               then py_int (text (Re.group m 4)) else ret head) ;;
      let '(reverse, head, tail) :=
        if head >=? tail then (false, tail, head) else (true, head, tail) in
      let numbits := tail - head + 1 in
      if (text (Re.group m 1) =? "m")%string then ret (cursor + numbits)
      else
        data_endpoint <- py_int (text (Re.group m 2)) ;;
        let data := mkData data_channel data_offset data_endpoint numbits head in
        (if reverse : bool then
           let data := with_numbits 1 data in
           print BeginReverse ;;
           for_each (range (tail - head + 1)) (fun i =>
             print (Extract (with_firstbit (tail - i)
                              (with_offset (cursor + i) data)))) ;;
           print EndReverse
         else print (Extract data)) ;;
        ret (cursor + numbits)
  end.

(** The body of [for line in MODEREF.splitlines()].  The only variable that
    outlives one turn and is read again is [offset]; [env] is its binding on
    entry ([None] while the name is still unbound). *)
Definition compile_line (env : option Z) (line : string) : M (option Z) :=
  let line := Py.strip line in
  if Py.is_empty line then ret env
  else
    match Py.split line with
    | [mode; assigns] =>
        mode <- py_int mode ;;
        let assigns := Py.split_on "," assigns in
        print (CaseLabel mode) ;;
        let cursor := 0 in
        cursor <- for_fold assigns compile_assign cursor ;;
        print Break ;;
        ret (Some cursor)
    | _ => raise ValueError
    end.

(** The whole script, for a given table. *)
Definition script (moderef : string) : M (option Z) :=
  print SwitchMode ;;
  print OpenBrace ;;
  env <- for_fold (Py.splitlines moderef) compile_line None ;;
  print CloseBrace ;;
  ret env.

Definition main : M (option Z) := script MODEREF.

(** *** Reading the output back *)

(** The extraction statements among the printed lines, in order. *)
Fixpoint ops (out : list Line) : list Data :=
  match out with
  | [] => []
  | Extract d :: out' => d :: ops out'
  | _ :: out' => ops out'
  end.

(** The program of each mode: the extraction statements between a [case]
    label and its [break]. *)
Fixpoint block_ops (out : list Line) : list Data :=
  match out with
  | [] => []
  | Break :: _ => []
  | CaseLabel _ :: _ => []
  | Extract d :: out' => d :: block_ops out'
  | _ :: out' => block_ops out'
  end.

Fixpoint programs (out : list Line) : list (Z * list Data) :=
  match out with
  | [] => []
  | CaseLabel mode :: out' => (mode, block_ops out') :: programs out'
  | _ :: out' => programs out'
  end.

(** *** Reading a field *)

(** The two numbers of a matched field as the loop body reads them, before
    it orders them: [int(m.group(3))] and
    [int(m.group(4)) if m.group(4) else head]. *)
Definition head_of (m : Re.captures) : option Z :=
  Py.int (text (Re.group m 3)).

Definition tail_of (m : Re.captures) : option Z :=
  if truthy (Re.group m 4) then Py.int (text (Re.group m 4)) else head_of m.

(** The test [head >= tail] of the loop body, negated: the field is written
    with its smaller number first. *)
Definition is_reversed (assign : string) : bool :=
  match Re.rmatch FIELD_RE assign with
  | Some m =>
      match head_of m, tail_of m with
      | Some h, Some t => negb (h >=? t)
      | _, _ => false
      end
  | None => false
  end.

(** [numbits] of a field: the two numbers are ordered, then
    [tail - head + 1]. *)
Definition field_width (assign : string) : Z :=
  match Re.rmatch FIELD_RE assign with
  | Some m =>
      match head_of m, tail_of m with
      | Some h, Some t => Z.max h t - Z.min h t + 1
      | _, _ => 0
      end
  | None => 0
  end.

(** The non-blank lines of a table, cut the way the outer loop cuts them:
    the mode text and the comma-separated elements. *)
Definition cut_line (line : string) : option (string * list string) :=
  match Py.split (Py.strip line) with
  | [mode; assigns] => Some (mode, Py.split_on "," assigns)
  | _ => None
  end.

Fixpoint table (lines : list string) : list (string * list string) :=
  match lines with
  | [] => []
  | l :: ls =>
      match cut_line l with
      | Some row => row :: table ls
      | None => table ls
      end
  end.

(** *** Destination bits *)

Definition covers (d : Data) (b : Z) : bool :=
  (firstbit d <=? b) && (b <? firstbit d + numbits d).



(** How many of the statements write destination bit [b]. *)
Definition writers (ds : list Data) (b : Z) : nat :=
  length (filter (fun d => covers d b) ds).

(** *** Definitions used by the statements below *)

(** The mode 3 line of the table. *)
Definition line3 : string :=
  "3  m[4:0],r0[9:0],g0[9:0],b0[9:0],r1[9:0],g1[9:0],b1[9:0]".

(** Every character of a string is in a class. *)
Fixpoint all_chars (p : ascii -> bool) (s : string) : bool :=
  match s with
  | "" => true
  | String c s' => p c && all_chars p s'
  end.

(** Text of 7-bit characters only: the text on which the character classes
    above are those of the interpreter. *)
Definition seven_bit (s : string) : bool :=
  all_chars (fun c => (nat_of_ascii c <? 128)%nat) s.

(** The pattern from the opening bracket on. *)
Definition RANGE_RE : Re.re :=
  Re.Cat (Re.Lit "[")
 (Re.Cat (Re.Grp 3 (Re.Plus Py.is_digit))
 (Re.Cat (Re.Opt (Re.Cat (Re.Lit ":") (Re.Grp 4 (Re.Plus Py.is_digit))))
         (Re.Lit "]"))).

(** A line compiles when the loop body, run on it alone, raises nothing. *)
Definition compiles (line : string) : Prop :=
  exists out env, compile_line None line = (out, Ok env).

Definition compilesb (line : string) : bool :=
  match snd (compile_line None line) with
  | Ok _ => true
  | Raise _ => false
  end.

(** The elements of a table that are written smaller number first, each
    with the mode text of its line. *)
Definition reversed_fields (moderef : string) : list (string * string) :=
  flat_map (fun row => map (pair (fst row)) (filter is_reversed (snd row)))
           (table (Py.splitlines moderef)).

(** The declared width of a line: the sum of the widths of its fields. *)
Definition total_width (assigns : list string) : Z :=
  fold_right Z.add 0 (map field_width assigns).

(** Mode and final cursor of a line that compiles. *)
Definition line_cursor (line : string) : option (Z * Z) :=
  match compile_line None line with
  | (CaseLabel mode :: _, Ok (Some cur)) => Some (mode, cur)
  | _ => None
  end.



(** *** The text of an element *)

(** [\d?]: nothing or one digit. *)
Definition digit01 (s : string) : bool :=
  match s with
  | "" => true
  | String d "" => Py.is_digit d
  | _ => false
  end.

(** [\d+]: a run of digits that is not empty. *)
Definition digits1 (s : string) : bool :=
  negb (Py.is_empty s) && all_chars Py.is_digit s.

(** An element spelled out: the letter, the endpoint text, the opening
    bracket, the first number, the colon and the second number when there
    is one, the closing bracket, and whatever follows. *)
Definition field_text (c : ascii) (g2 g3 : string) (g4 : option string)
           (rest : string) : string :=
  String c (g2 ++ String "[" (g3 ++
    match g4 with
    | Some g => String ":" (g ++ String "]" rest)
    | None => String "]" rest
    end))%string.

(** The match object of such an element. *)
Definition field_captures (c : ascii) (g2 g3 : string) (g4 : option string)
  : Re.captures :=
  match g4 with
  | Some g => [(4%nat, g); (3%nat, g3); (2%nat, g2); (1%nat, String c "")]
  | None => [(3%nat, g3); (2%nat, g2); (1%nat, String c "")]
  end.

(** *** Moving a program, and what it reads *)

(** A printed line with its source offset moved by [k]. *)
Definition shift (k : Z) (l : Line) : Line :=
  match l with
  | Extract d => Extract (with_offset (offset d + k) d)
  | _ => l
  end.

Definition shift_result (k : Z) (r : result Z) : result Z :=
  match r with
  | Ok c => Ok (c + k)
  | Raise e => Raise e
  end.

(** The first statement has read all its bits before the second starts. *)
Definition ends_before (d1 d2 : Data) : Prop :=
  offset d1 + numbits d1 <= offset d2.

(** The number of source bits a list of statements reads. *)
Definition bits_read (ds : list Data) : Z :=
  fold_right Z.add 0 (map numbits ds).

(** The test [m.group(1) == 'm'] on an element. *)
Definition is_selector (a : string) : bool :=
  match Re.rmatch FIELD_RE a with
  | Some m => (text (Re.group m 1) =? "m")%string
  | None => false
  end.

(** A text of white space only. *)
Definition blank (s : string) : bool := all_chars Py.isspace s.

(** The lines the loop over the elements prints. *)
Definition is_stmt (l : Line) : bool :=
  match l with
  | Extract _ | BeginReverse | EndReverse => true
  | _ => false
  end.

(** A [case] block: the label, statements, the [break]. *)
Definition case_block (b : list Line) : Prop :=
  exists mode body,
    b = CaseLabel mode :: (body ++ [Break]) /\ forallb is_stmt body = true.

(** A statement as the generated code can take it: the channel is one
    word character other than [m], the endpoint is one digit, the shift is
    not negative and at least one bit is read. *)
Definition stmt_ok (d : Data) : Prop :=
  (exists c, channel d = String c "" /\ Py.is_word c = true /\ c <> "m"%char)
  /\ 0 <= endpoint d <= 9
  /\ 0 <= firstbit d
  /\ 1 <= numbits d.

(** An element that names the single bit [b] of channel [c] of endpoint
    [e], such as [g2[4]]. *)
Definition names_one_bit (c : string) (e b : Z) (x : string) : Prop :=
  exists m,
    Re.rmatch FIELD_RE x = Some m
    /\ head_of m = Some b /\ tail_of m = Some b
    /\ text (Re.group m 1) = c
    /\ Py.int (text (Re.group m 2)) = Some e.

(* ================================================================== *)
(** ** Checks of the primitives against the interpreter's behaviour *)

Example splitlines_ex :
  Py.splitlines (String "010" ("a b" ++ String "013" (String "010" (String "010" "c"))))%string
  = [""; "a b"; ""; "c"].
Proof. reflexivity. Qed.

Example split_ex : Py.split " a  b " = ["a"; "b"] /\ Py.split_on "," ",a," = [""; "a"; ""].
Proof. split; reflexivity. Qed.

Example int_ex :
  map Py.int ["1_0"; "_1"; "1_"; "1__0"; "+3"; "-3"; " 7 "; ""; "007"; "- 3"]
  = [Some 10; None; None; None; Some 3; Some (-3); Some 7; None; Some 7; None].
Proof. reflexivity. Qed.

Example int_space_ex :
  map Py.int [String "009" "7"; String "7" (String "010" ""); String "028" "7";
              String "7" (String "031" "")]
  = [Some 7; Some 7; None; None]
  /\ map Py.strip [String "028" "7"; String "7" (String "031" "")] = ["7"; "7"].
Proof. split; reflexivity. Qed.

Example rmatch_ex :
  map (Re.rmatch FIELD_RE) ["r0[10:15]"; "12[3]"; "_[1]"; "r0[3:0]junk"; "r0[3:]"; "r00[3]"; " r0[1]"]
  = [Some [(4%nat, "15"); (3%nat, "10"); (2%nat, "0"); (1%nat, "r")];
     Some [(3%nat, "3"); (2%nat, "2"); (1%nat, "1")];
     Some [(3%nat, "1"); (2%nat, ""); (1%nat, "_")];
     Some [(4%nat, "0"); (3%nat, "3"); (2%nat, "0"); (1%nat, "r")];
     None; None; None].
Proof. reflexivity. Qed.

Example render_ex :
  map render (fst (compile_line None "15 m[4:0],r0[9:0],b0[10:11]"))
  = ["case 15:";
     "    colors[0].c.r |= TCTEX_H_GETBITS(bdata, 5, 10) << 0;";
     "    /* begin reverse read */";
     "    colors[0].c.b |= TCTEX_H_GETBITS(bdata, 15, 1) << 11;";
     "    colors[0].c.b |= TCTEX_H_GETBITS(bdata, 16, 1) << 10;";
     "    /* end reverse read */";
     "    break;"].
Proof. reflexivity. Qed.

(* ================================================================== *)
(** ** The monad and the loops *)

Lemma bind_ret_l {A B} (a : A) (f : A -> M B) : bind (ret a) f = f a.
Proof. unfold bind, ret. destruct (f a); reflexivity. Qed.

Lemma bind_raise {A B} (e : exn) (f : A -> M B) : bind (raise e) f = raise e.
Proof. reflexivity. Qed.

Lemma bind_assoc {A B C} (c : M A) (f : A -> M B) (g : B -> M C) :
  bind (bind c f) g = bind c (fun a => bind (f a) g).
Proof.
  destruct c as [out [a|e]]; simpl; [|reflexivity].
  destruct (f a) as [out1 [b|e1]]; simpl; [|reflexivity].
  destruct (g b) as [out2 r]. now rewrite app_assoc.
Qed.

Lemma bind_ok {A B} (c : M A) (f : A -> M B) out a :
  c = (out, Ok a) -> bind c f = (out ++ fst (f a), snd (f a)).
Proof. intros ->. simpl. now destruct (f a). Qed.

Lemma bind_fail {A B} (c : M A) (f : A -> M B) out e :
  c = (out, Raise e) -> bind c f = (out, Raise e).
Proof. now intros ->. Qed.

(** A successful [bind] splits into two successful halves. *)
Lemma bind_ok_inv {A B} (c : M A) (f : A -> M B) out b :
  bind c f = (out, Ok b) ->
  exists out1 a out2,
    c = (out1, Ok a) /\ f a = (out2, Ok b) /\ out = out1 ++ out2.
Proof.
  destruct c as [out1 [a|e]]; simpl; [|discriminate].
  destruct (f a) as [out2 r] eqn:Hf. intros H. injection H as <- ->.
  now exists out1, a, out2.
Qed.

Lemma for_fold_app {A S} (body : S -> A -> M S) (xs ys : list A) (st : S) :
  for_fold (xs ++ ys) body st
  = bind (for_fold xs body st) (for_fold ys body).
Proof.
  revert st. induction xs as [|x xs IH]; intros st; cbn [for_fold app].
  - now rewrite bind_ret_l.
  - rewrite bind_assoc.
    destruct (body st x) as [out [st'|e]]; cbn [bind]; [|reflexivity].
    now rewrite IH.
Qed.

(** Once an element makes the body raise, the loop is over: what the earlier
    elements printed stays, nothing is printed for the later ones. *)
Lemma for_fold_raise {A S} (body : S -> A -> M S) xs x ys st out st' out' e :
  for_fold xs body st = (out, Ok st') ->
  body st' x = (out', Raise e) ->
  for_fold (xs ++ x :: ys) body st = (out ++ out', Raise e).
Proof.
  intros Hxs Hx. rewrite for_fold_app, Hxs. cbn [bind for_fold].
  now rewrite Hx.
Qed.

Lemma for_each_map {A} (f : A -> Line) (xs : list A) :
  for_each xs (fun x => print (f x)) = (map f xs, Ok tt).
Proof.
  induction xs as [|x xs IH]; [reflexivity|].
  cbn [for_each map]. now rewrite IH.
Qed.

Lemma ops_app (o1 o2 : list Line) : ops (o1 ++ o2) = ops o1 ++ ops o2.
Proof.
  induction o1 as [|l o1 IH]; [reflexivity|].
  destruct l; cbn [ops app]; now rewrite ?IH.
Qed.

Lemma ops_map_extract (ds : list Data) : ops (map Extract ds) = ds.
Proof. induction ds as [|d ds IH]; [reflexivity|]. cbn. now rewrite IH. Qed.

Lemma range_length (n : Z) : length (range n) = Z.to_nat n.
Proof. unfold range. now rewrite length_map, length_seq. Qed.

Lemma range_nth (n : Z) (i : nat) :
  (i < Z.to_nat n)%nat -> nth i (range n) 0 = Z.of_nat i.
Proof.
  intros Hi. unfold range.
  change 0 with (Z.of_nat 0). rewrite map_nth, seq_nth by assumption.
  reflexivity.
Qed.

Lemma nth_map_range {A} (f : Z -> A) (n i : Z) (d : A) :
  0 <= i < n -> nth (Z.to_nat i) (map f (range n)) d = f i.
Proof.
  intros Hi.
  rewrite (nth_indep _ d (f 0)) by (rewrite length_map, range_length; lia).
  rewrite map_nth, range_nth by lia. now rewrite Z2Nat.id by lia.
Qed.

Lemma in_range_iff (n i : Z) : In i (range n) <-> 0 <= i < n.
Proof.
  unfold range. rewrite in_map_iff. split.
  - intros [k [<- Hk]]. apply in_seq in Hk. lia.
  - intros Hi. exists (Z.to_nat i). split; [lia|]. apply in_seq. lia.
Qed.

(* ================================================================== *)
(** ** One field *)

(** What the loop body does with a field that matches, by cases on the
    channel letter, the order of the two numbers and the endpoint digit. *)
Section Matched.

Variables (cursor : Z) (assign : string) (m : Re.captures) (h t : Z).
Hypothesis Hm : Re.rmatch FIELD_RE assign = Some m.
Hypothesis Hh : head_of m = Some h.
Hypothesis Ht : tail_of m = Some t.

Lemma compile_assign_matched :
  compile_assign cursor assign =
  let '(reverse, lo, hi) :=
    if h >=? t then (false, t, h) else (true, h, t) in
  let n := hi - lo + 1 in
  if (text (Re.group m 1) =? "m")%string then ret (cursor + n)
  else
    e <- py_int (text (Re.group m 2)) ;;
    let data := mkData (text (Re.group m 1)) cursor e n lo in
    (if reverse : bool then
       print BeginReverse ;;
       for_each (range (hi - lo + 1)) (fun i =>
         print (Extract (with_firstbit (hi - i)
                          (with_offset (cursor + i) (with_numbits 1 data))))) ;;
       print EndReverse
     else print (Extract data)) ;;
    ret (cursor + n).
Proof.
  unfold compile_assign. rewrite Hm.
  unfold tail_of, head_of in *. unfold py_int at 1. rewrite Hh.
  rewrite bind_ret_l.
  destruct (truthy (Re.group m 4)).
  - unfold py_int at 1. rewrite Ht. rewrite bind_ret_l. reflexivity.
  - rewrite bind_ret_l. assert (t = h) as -> by congruence. reflexivity.
Qed.

Lemma compile_assign_selector :
  text (Re.group m 1) = "m" ->
  compile_assign cursor assign = ([], Ok (cursor + (Z.max h t - Z.min h t + 1))).
Proof.
  intros Hc. rewrite compile_assign_matched, Hc.
  destruct (h >=? t) eqn:E; cbn; unfold ret; repeat f_equal; lia.
Qed.

Lemma compile_assign_no_endpoint :
  text (Re.group m 1) <> "m" ->
  Py.int (text (Re.group m 2)) = None ->
  compile_assign cursor assign = ([], Raise ValueError).
Proof.
  intros Hc He. rewrite compile_assign_matched.
  apply String.eqb_neq in Hc. unfold py_int. rewrite He.
  destruct (h >=? t); cbn beta iota; rewrite Hc; reflexivity.
Qed.

Lemma compile_assign_forward e :
  text (Re.group m 1) <> "m" ->
  Py.int (text (Re.group m 2)) = Some e ->
  t <= h ->
  compile_assign cursor assign
  = ([Extract (mkData (text (Re.group m 1)) cursor e (h - t + 1) t)],
     Ok (cursor + (h - t + 1))).
Proof.
  intros Hc He Hle. rewrite compile_assign_matched.
  apply String.eqb_neq in Hc. unfold py_int. rewrite He.
  apply Z.geb_le in Hle. rewrite Hle. cbn beta iota. rewrite Hc.
  reflexivity.
Qed.

Lemma compile_assign_reverse e :
  text (Re.group m 1) <> "m" ->
  Py.int (text (Re.group m 2)) = Some e ->
  h < t ->
  compile_assign cursor assign
  = (BeginReverse
       :: (map (fun i => Extract (mkData (text (Re.group m 1)) (cursor + i) e 1 (t - i)))
               (range (t - h + 1))
           ++ [EndReverse]),
     Ok (cursor + (t - h + 1))).
Proof.
  intros Hc He Hlt. rewrite compile_assign_matched.
  apply String.eqb_neq in Hc. unfold py_int. rewrite He.
  assert ((h >=? t) = false) as -> by (rewrite Z.geb_leb; apply Z.leb_gt; lia).
  cbn beta iota. rewrite Hc. rewrite bind_ret_l.
  rewrite for_each_map. cbn. rewrite app_nil_r. reflexivity.
Qed.

End Matched.

(** The digits, and what [int] makes of one of them. *)
Lemma is_digit_inv (d : ascii) :
  Py.is_digit d = true ->
  In d ["0"; "1"; "2"; "3"; "4"; "5"; "6"; "7"; "8"; "9"]%char.
Proof.
  destruct d as [[] [] [] [] [] [] [] []]; intros H;
    try discriminate H; cbn; tauto.
Qed.

Lemma int_digit (d : ascii) :
  Py.is_digit d = true -> Py.int (String d "") = Some (Py.digit_val d).
Proof.
  intros H. apply is_digit_inv in H. cbn [In] in H.
  repeat (destruct H as [<-|H]; [reflexivity|]). contradiction.
Qed.

(* ================================================================== *)
(** ** The numbers of a matched field are always there *)

Lemma many_inv {R} (p : ascii -> bool) (s : string)
      (k : string -> string -> option R) (r : R) :
  Re.many p s k = Some r ->
  exists t rest, all_chars p t = true /\ k t rest = Some r.
Proof.
  revert k. induction s as [|c s IH]; intros k H; cbn [Re.many] in H.
  - now exists "", "".
  - destruct (p c) eqn:Hp; [|now exists "", (String c s)].
    destruct (Re.many p s (fun t rest => k (String c t) rest)) as [r'|] eqn:E.
    + injection H as ->. apply IH in E. destruct E as [t [rest [Ht Hk]]].
      exists (String c t), rest. cbn [all_chars]. now rewrite Hp, Ht.
    + now exists "", (String c s).
Qed.

Lemma digit_not_space (c : ascii) :
  Py.is_digit c = true -> Py.int_space c = false.
Proof.
  intros H. apply is_digit_inv in H. cbn [In] in H.
  repeat (destruct H as [<-|H]; [reflexivity|]). contradiction.
Qed.

Lemma rstrip_digits (s : string) :
  all_chars Py.is_digit s = true -> Py.int_rstrip s = s.
Proof.
  induction s as [|c s IH]; [reflexivity|]. cbn [all_chars Py.int_rstrip].
  intros H. apply andb_true_iff in H. destruct H as [Hc Hs].
  now rewrite (digit_not_space c Hc), IH.
Qed.

Lemma int_digits_all (s : string) :
  all_chars Py.is_digit s = true ->
  forall acc b,
    0 <= acc -> s <> "" \/ b = true ->
    exists z, Py.int_digits acc b s = Some z /\ 0 <= z.
Proof.
  induction s as [|c s IH]; intros Hs acc b Hacc Hne; cbn [Py.int_digits].
  - destruct Hne as [Hne | ->]; [contradiction|]. now exists acc.
  - cbn [all_chars] in Hs. apply andb_true_iff in Hs. destruct Hs as [Hc Hs].
    rewrite Hc. apply IH; [exact Hs| |now right].
    assert (0 <= Py.digit_val c).
    { apply is_digit_inv in Hc. cbn [In] in Hc.
      repeat (destruct Hc as [<-|Hc]; [cbv; discriminate|]). contradiction. }
    lia.
Qed.

(** [int] of a non-empty run of digits is a number that is not negative. *)
Lemma int_all_digits (c : ascii) (s : string) :
  Py.is_digit c = true ->
  all_chars Py.is_digit s = true ->
  exists z, Py.int (String c s) = Some z /\ 0 <= z.
Proof.
  intros Hc Hs. unfold Py.int. cbn [Py.int_lstrip].
  rewrite (digit_not_space c Hc).
  rewrite rstrip_digits by (cbn [all_chars]; now rewrite Hc, Hs).
  assert (H : exists z, Py.int_digits 0 false (String c s) = Some z /\ 0 <= z).
  { apply int_digits_all; [cbn [all_chars]; now rewrite Hc, Hs|lia|].
    left. discriminate. }
  apply is_digit_inv in Hc. cbn [In] in Hc.
  repeat (destruct Hc as [<-|Hc]; [exact H|]). contradiction.
Qed.

Lemma range_re_inv (s : string) (cs m : Re.captures) :
  Re.exec RANGE_RE s cs (fun _ _ cs' => Some cs') = Some m ->
  exists d3 t3,
    Py.is_digit d3 = true /\ all_chars Py.is_digit t3 = true
    /\ (m = (3%nat, String d3 t3) :: cs
        \/ exists d4 t4,
             Py.is_digit d4 = true /\ all_chars Py.is_digit t4 = true
             /\ m = (4%nat, String d4 t4) :: (3%nat, String d3 t3) :: cs).
Proof.
  unfold RANGE_RE. cbn [Re.exec Re.Lit]. intros H.
  destruct s as [|c0 s]; [discriminate H|].
  destruct (Ascii.eqb "[" c0); [|discriminate H].
  destruct s as [|d3 s]; [discriminate H|].
  destruct (Py.is_digit d3) eqn:Hd3; [|discriminate H].
  apply many_inv in H. destruct H as [t3 [rest [Ht3 H]]].
  exists d3, t3. split; [exact Hd3|]. split; [exact Ht3|].
  match type of H with
  | match ?X with Some x => Some x | None => _ end = _ =>
      destruct X as [m'|] eqn:E
  end.
  - injection H as ->. right.
    destruct rest as [|c1 rest]; [discriminate E|].
    destruct (Ascii.eqb ":" c1); [|discriminate E].
    destruct rest as [|d4 rest]; [discriminate E|].
    destruct (Py.is_digit d4) eqn:Hd4; [|discriminate E].
    apply many_inv in E. destruct E as [t4 [rest' [Ht4 E]]].
    destruct rest' as [|c2 rest']; [discriminate E|].
    destruct (Ascii.eqb "]" c2); [|discriminate E].
    injection E as <-. now exists d4, t4.
  - left.
    destruct rest as [|c1 rest]; [discriminate H|].
    destruct (Ascii.eqb "]" c1); [|discriminate H].
    now injection H as <-.
Qed.

(** Whenever the pattern matches, both numbers of the field can be read:
    the hypotheses [head_of m = Some h] and [tail_of m = Some t] of the
    lemmas on one field only give them names. *)
Lemma matched_field_numbers (assign : string) (m : Re.captures) :
  Re.rmatch FIELD_RE assign = Some m ->
  exists h t, head_of m = Some h /\ tail_of m = Some t /\ 0 <= h /\ 0 <= t.
Proof.
  unfold Re.rmatch, FIELD_RE. fold RANGE_RE. cbn [Re.exec]. intros H.
  destruct assign as [|c s]; [discriminate H|].
  destruct (Py.is_word c); [|discriminate H].
  assert (Hr : exists cs,
             Re.exec RANGE_RE
               match cs with (_, s') => s' end
               (fst cs) (fun _ _ cs' => Some cs') = Some m
             /\ Re.lookup 3 (fst cs) = None /\ Re.lookup 4 (fst cs) = None).
  { match type of H with
    | match ?X with Some x => Some x | None => ?Y end = _ =>
        destruct X as [m'|] eqn:E
    end.
    - injection H as ->.
      destruct s as [|d s]; [discriminate E|].
      destruct (Py.is_digit d); [|discriminate E].
      exists ([(2%nat, String d ""); (1%nat, String c "")], s).
      now split.
    - exists ([(2%nat, ""); (1%nat, String c "")], s). now split. }
  destruct Hr as [[cs s'] [Hr [H3 H4]]]. cbn [fst] in *.
  apply range_re_inv in Hr.
  destruct Hr as [d3 [t3 [Hd3 [Ht3 Hm]]]].
  destruct (int_all_digits d3 t3 Hd3 Ht3) as [h [Hh Hh0]].
  destruct Hm as [-> | [d4 [t4 [Hd4 [Ht4 ->]]]]].
  - exists h, h. unfold tail_of, head_of, Re.group. cbn [Re.lookup Nat.eqb text truthy].
    rewrite H4. cbn [truthy]. now rewrite Hh.
  - destruct (int_all_digits d4 t4 Hd4 Ht4) as [t [Ht Ht0]].
    exists h, t. unfold tail_of, head_of, Re.group.
    cbn [Re.lookup Nat.eqb text truthy Py.is_empty negb].
    now rewrite Hh, Ht.
Qed.

(* ================================================================== *)
(** ** Mode 3, end to end *)

(** C1. The mode 3 line of [MODEREF] compiles, from cursor 0, to the [case]
    label, six forward statements (r0 at offset 5, g0 at 15, b0 at 25, r1 at
    35, g1 at 45, b1 at 55, each 10 bits wide and shifted by 0) and the
    [break]; the selector [m[4:0]] moves the cursor from 0 to 5 and prints
    nothing; the cursor ends at 65. *)
Theorem mode3_program :
  In line3 (Py.splitlines MODEREF)
  /\ cut_line line3
     = Some ("3", ["m[4:0]"; "r0[9:0]"; "g0[9:0]"; "b0[9:0]";
                   "r1[9:0]"; "g1[9:0]"; "b1[9:0]"])
  /\ compile_assign 0 "m[4:0]" = ([], Ok 5)
  /\ compile_line None line3
     = ([CaseLabel 3;
         Extract (mkData "r" 5 0 10 0);
         Extract (mkData "g" 15 0 10 0);
         Extract (mkData "b" 25 0 10 0);
         Extract (mkData "r" 35 1 10 0);
         Extract (mkData "g" 45 1 10 0);
         Extract (mkData "b" 55 1 10 0);
         Break],
        Ok (Some 65)).
Proof.
  split; [|split; [|split]]; try reflexivity.
  vm_compute. tauto.
Qed.

(* ================================================================== *)
(** ** Forward fields *)

(** The selector of every line of the table is written larger number
    first; it has no destination and prints nothing. *)
Lemma selector_forward_emits_nothing :
  Re.rmatch FIELD_RE "m[4:0]"
    = Some [(4%nat, "0"); (3%nat, "4"); (2%nat, ""); (1%nat, "m")]
  /\ is_reversed "m[4:0]" = false
  /\ compile_assign 0 "m[4:0]" = ([], Ok 5)
  /\ ops (fst (compile_assign 0 "m[4:0]")) <> [mkData "m" 0 0 5 0]
  /\ length (ops (fst (compile_assign 0 "m[4:0]"))) <> 1%nat.
Proof. repeat split; try reflexivity; discriminate. Qed.

(** C5. The direction of a field is read off the two numbers as they are
    written: a field that matches, with first number [h] and second number
    [t] (or [t = h] when only one is written) and [h >= t], is forward.
    For such a field with a destination, that is, with a channel letter
    other than the selector's and with its endpoint digit, exactly one
    statement is printed, at the cursor, [h - t + 1] bits wide, for the
    field's endpoint and channel, shifted by [t], and the cursor moves by
    [h - t + 1].  (The selector prints nothing and moves the cursor by
    [h - t + 1]; a missing endpoint digit is a [ValueError].) *)
Theorem forward_field_single_op :
  forall (cursor : Z) (assign : string) (m : Re.captures) (h t : Z),
    Re.rmatch FIELD_RE assign = Some m ->
    head_of m = Some h ->
    tail_of m = Some t ->
    t <= h ->
    is_reversed assign = false
    /\ (forall e,
          text (Re.group m 1) <> "m" ->
          Py.int (text (Re.group m 2)) = Some e ->
          compile_assign cursor assign
          = ([Extract (mkData (text (Re.group m 1)) cursor e (h - t + 1) t)],
             Ok (cursor + (h - t + 1))))
    /\ (text (Re.group m 1) = "m" ->
        compile_assign cursor assign = ([], Ok (cursor + (h - t + 1))))
    /\ (text (Re.group m 1) <> "m" ->
        Py.int (text (Re.group m 2)) = None ->
        compile_assign cursor assign = ([], Raise ValueError)).
Proof.
  intros cursor assign m h t Hm Hh Ht Hle. repeat split.
  - unfold is_reversed. rewrite Hm, Hh, Ht.
    apply Z.geb_le in Hle. now rewrite Hle.
  - intros e Hc He. now apply compile_assign_forward.
  - intros Hc. rewrite (compile_assign_selector cursor assign m h t) by assumption.
    repeat f_equal; lia.
  - intros Hc He. now apply (compile_assign_no_endpoint cursor assign m h t).
Qed.

Lemma forward_field_single_op_witness :
  compile_assign 5 "r0[9:0]" = ([Extract (mkData "r" 5 0 10 0)], Ok 15).
Proof.
  refine (proj1 (proj2 (forward_field_single_op 5 "r0[9:0]"
            [(4%nat, "0"); (3%nat, "9"); (2%nat, "0"); (1%nat, "r")] 9 0
            eq_refl eq_refl eq_refl _)) 0 _ eq_refl).
  - discriminate.
  - discriminate.
Defined.

(* ================================================================== *)
(** ** Reversed fields *)

(** A selector written smaller number first has no destination either. *)
Lemma selector_reversed_emits_nothing :
  Re.rmatch FIELD_RE "m[2:5]"
    = Some [(4%nat, "5"); (3%nat, "2"); (2%nat, ""); (1%nat, "m")]
  /\ is_reversed "m[2:5]" = true
  /\ compile_assign 0 "m[2:5]" = ([], Ok 4)
  /\ length (ops (fst (compile_assign 0 "m[2:5]"))) <> 4%nat
  /\ compile_assign 0 "x[2:5]" = ([], Raise ValueError).
Proof. repeat split; try reflexivity; discriminate. Qed.

(** C2. For a field that matches, with first number [h] smaller than the
    second number [t], and with a destination (a channel letter other than
    the selector's and its endpoint digit): between the two comment lines
    exactly
    [t - h + 1] statements are printed, the [i]-th of them reading one bit at
    [cursor + i] and shifting it by [t - i], and the cursor moves by
    [t - h + 1] at the end.  [x0[2:5]] gives four statements with shifts
    5, 4, 3, 2 at [cursor], [cursor + 1], [cursor + 2], [cursor + 3]. *)
Theorem reversed_field_expansion :
  forall (cursor : Z) (assign : string) (m : Re.captures) (h t e : Z),
    Re.rmatch FIELD_RE assign = Some m ->
    head_of m = Some h ->
    tail_of m = Some t ->
    h < t ->
    text (Re.group m 1) <> "m" ->
    Py.int (text (Re.group m 2)) = Some e ->
    let n := t - h + 1 in
    let c := text (Re.group m 1) in
    is_reversed assign = true
    /\ snd (compile_assign cursor assign) = Ok (cursor + n)
    /\ ops (fst (compile_assign cursor assign))
       = map (fun i => mkData c (cursor + i) e 1 (t - i)) (range n)
    /\ length (ops (fst (compile_assign cursor assign))) = Z.to_nat n
    /\ (forall i, 0 <= i < n ->
          nth (Z.to_nat i) (ops (fst (compile_assign cursor assign)))
              (mkData "" 0 0 0 0)
          = mkData c (cursor + i) e 1 (t - i))
    /\ ops (fst (compile_assign cursor "x0[2:5]"))
       = [mkData "x" cursor 0 1 5; mkData "x" (cursor + 1) 0 1 4;
          mkData "x" (cursor + 2) 0 1 3; mkData "x" (cursor + 3) 0 1 2]
    /\ snd (compile_assign cursor "x0[2:5]") = Ok (cursor + 4).
Proof.
  intros cursor assign m h t e Hm Hh Ht Hlt Hc He n c.
  assert (Hops : ops (fst (compile_assign cursor assign))
                 = map (fun i => mkData c (cursor + i) e 1 (t - i)) (range n)).
  { rewrite (compile_assign_reverse cursor assign m h t Hm Hh Ht e Hc He Hlt).
    cbn [fst ops]. rewrite ops_app, <- (map_map _ Extract), ops_map_extract.
    cbn [ops]. now rewrite app_nil_r. }
  split; [|split; [|split; [|split; [|split; [|split]]]]].
  - unfold is_reversed. rewrite Hm, Hh, Ht.
    assert ((h >=? t) = false) as -> by (rewrite Z.geb_leb; apply Z.leb_gt; lia).
    reflexivity.
  - now rewrite (compile_assign_reverse cursor assign m h t Hm Hh Ht e Hc He Hlt).
  - exact Hops.
  - now rewrite Hops, length_map, range_length.
  - intros i Hi. rewrite Hops.
    now apply (nth_map_range (fun i => mkData c (cursor + i) e 1 (t - i))).
  - rewrite (compile_assign_reverse cursor "x0[2:5]"
               [(4%nat, "5"); (3%nat, "2"); (2%nat, "0"); (1%nat, "x")] 2 5
               eq_refl eq_refl eq_refl 0) by (reflexivity || discriminate).
    change (range (5 - 2 + 1)) with [0; 1; 2; 3].
    cbn [fst map app ops]. now rewrite Z.add_0_r.
  - now rewrite (compile_assign_reverse cursor "x0[2:5]"
               [(4%nat, "5"); (3%nat, "2"); (2%nat, "0"); (1%nat, "x")] 2 5
               eq_refl eq_refl eq_refl 0) by (reflexivity || discriminate).
Qed.

Lemma reversed_field_expansion_witness :
  ops (fst (compile_assign 35 "r0[10:15]"))
  = [mkData "r" 35 0 1 15; mkData "r" 36 0 1 14; mkData "r" 37 0 1 13;
     mkData "r" 38 0 1 12; mkData "r" 39 0 1 11; mkData "r" 40 0 1 10].
Proof.
  refine (proj1 (proj2 (proj2 (reversed_field_expansion 35 "r0[10:15]"
            [(4%nat, "15"); (3%nat, "10"); (2%nat, "0"); (1%nat, "r")] 10 15 0
            eq_refl eq_refl eq_refl eq_refl _ eq_refl)))).
  discriminate.
Defined.

(* ================================================================== *)
(** ** What the pattern lets through *)

(** Any word character is taken for the channel letter, and whatever follows
    the closing bracket is not looked at. *)
Lemma rmatch_any_letter (c d : ascii) (rest : string) :
  Py.is_word c = true ->
  Py.is_digit d = true ->
  Re.rmatch FIELD_RE (String c (String d ("[3:0]" ++ rest)))
  = Some [(4%nat, "0"); (3%nat, "3"); (2%nat, String d ""); (1%nat, String c "")].
Proof.
  intros Hc Hd. unfold Re.rmatch, FIELD_RE.
  cbn [Re.exec]. rewrite Hc, Hd. reflexivity.
Qed.

Lemma rmatch_selector_digit (d : ascii) (rest : string) :
  Py.is_digit d = true ->
  Re.rmatch FIELD_RE (String "m" (String d ("[1:0]" ++ rest)))
  = Some [(4%nat, "0"); (3%nat, "1"); (2%nat, String d ""); (1%nat, "m")].
Proof.
  intros Hd. unfold Re.rmatch, FIELD_RE.
  cbn [Re.exec]. change (Py.is_word "m") with true. rewrite Hd. reflexivity.
Qed.

(** C10. The pattern takes any word character for the channel letter and is
    anchored at the start only: a word character other than [m], a digit,
    [[3:0]] and then anything at all is compiled to one ordinary statement
    for that letter, and [m], a digit, [[1:0]] and then anything at all is
    still a selector, which moves the cursor by two bits and prints
    nothing.  [z0[3:0]] and [m0[1:0]] are instances. *)
Theorem lenient_field_grammar :
  forall (c d : ascii) (rest : string) (cursor : Z),
    Py.is_word c = true ->
    Py.is_digit d = true ->
    (c <> "m"%char ->
     compile_assign cursor (String c (String d ("[3:0]" ++ rest)))
     = ([Extract (mkData (String c "") cursor (Py.digit_val d) 4 0)],
        Ok (cursor + 4)))
    /\ compile_assign cursor (String "m" (String d ("[1:0]" ++ rest)))
       = ([], Ok (cursor + 2))
    /\ compile_assign cursor "z0[3:0]"
       = ([Extract (mkData "z" cursor 0 4 0)], Ok (cursor + 4))
    /\ compile_assign cursor "m0[1:0]" = ([], Ok (cursor + 2)).
Proof.
  intros c d rest cursor Hc Hd.
  assert (Hgen : forall c' d' rest',
            Py.is_word c' = true -> Py.is_digit d' = true -> c' <> "m"%char ->
            compile_assign cursor (String c' (String d' ("[3:0]" ++ rest')))
            = ([Extract (mkData (String c' "") cursor (Py.digit_val d') 4 0)],
               Ok (cursor + 4))).
  { intros c' d' rest' Hc' Hd' Hne.
    apply (compile_assign_forward cursor _ _ 3 0
             (rmatch_any_letter c' d' rest' Hc' Hd') eq_refl eq_refl).
    - cbn. intros H. injection H as H. contradiction.
    - cbn [Re.group Re.lookup Nat.eqb text]. now apply int_digit.
    - lia. }
  assert (Hsel : forall d' rest',
            Py.is_digit d' = true ->
            compile_assign cursor (String "m" (String d' ("[1:0]" ++ rest')))
            = ([], Ok (cursor + 2))).
  { intros d' rest' Hd'.
    apply (compile_assign_selector cursor _ _ 1 0
             (rmatch_selector_digit d' rest' Hd') eq_refl eq_refl).
    reflexivity. }
  split; [|split; [|split]].
  - intros Hne. now apply Hgen.
  - now apply Hsel.
  - apply (Hgen "z"%char "0"%char ""); [reflexivity|reflexivity|discriminate].
  - apply (Hsel "0"%char ""). reflexivity.
Qed.

Lemma lenient_field_grammar_witness :
  compile_assign 7 "q5[3:0] and more"
  = ([Extract (mkData "q" 7 5 4 0)], Ok 11).
Proof.
  refine (proj1 (lenient_field_grammar "q" "5" " and more" 7 eq_refl eq_refl) _).
  discriminate.
Defined.

(* ================================================================== *)
(** ** One line *)

Lemma compile_line_blank (env : option Z) (line : string) :
  Py.is_empty (Py.strip line) = true -> compile_line env line = ([], Ok env).
Proof. intros H. unfold compile_line. now rewrite H. Qed.

(** A line that is not blank never reads the binding of [offset] it finds:
    [offset = 0] comes before the first use. *)
Lemma compile_line_env (env1 env2 : option Z) (line : string) :
  Py.is_empty (Py.strip line) = false ->
  compile_line env1 line = compile_line env2 line.
Proof. intros H. unfold compile_line. now rewrite H. Qed.

Lemma compile_line_output_env (env1 env2 : option Z) (line : string) :
  fst (compile_line env1 line) = fst (compile_line env2 line).
Proof.
  destruct (Py.is_empty (Py.strip line)) eqn:E.
  - now rewrite !compile_line_blank.
  - now rewrite (compile_line_env env1 env2).
Qed.

Lemma compile_line_again (env : option Z) (line : string) out env' :
  compile_line env line = (out, Ok env') ->
  compile_line env' line = (out, Ok env').
Proof.
  intros H. destruct (Py.is_empty (Py.strip line)) eqn:E.
  - rewrite compile_line_blank in H by assumption. injection H as <- <-.
    now apply compile_line_blank.
  - now rewrite (compile_line_env env' env).
Qed.

Lemma cut_line_not_blank (line : string) row :
  cut_line line = Some row -> Py.is_empty (Py.strip line) = false.
Proof.
  unfold cut_line. destruct (Py.strip line); [discriminate|reflexivity].
Qed.

(** A line that is cut in two and whose mode is a number: the [case] label,
    then the loop over the elements, then the [break]. *)
Lemma compile_line_cut (env : option Z) (line mode_s : string) assigns mode :
  cut_line line = Some (mode_s, assigns) ->
  Py.int mode_s = Some mode ->
  compile_line env line
  = (print (CaseLabel mode) ;;
     cursor <- for_fold assigns compile_assign 0 ;;
     print Break ;;
     ret (Some cursor)).
Proof.
  intros Hcut Hmode. pose proof (cut_line_not_blank _ _ Hcut) as Hnb.
  unfold compile_line. rewrite Hnb. unfold cut_line in Hcut.
  destruct (Py.split (Py.strip line)) as [|a [|b [|c l]]]; try discriminate.
  injection Hcut as -> <-. unfold py_int. rewrite Hmode.
  now rewrite bind_ret_l.
Qed.

(** C9. Compiling a line is a function of its text: what is printed does not
    depend on the binding of [offset] left by earlier lines, a line that is
    not blank gives the same output, the same exception or the same final
    cursor whatever that binding is, and compiling a line a second time,
    right after the first, prints the same statements again. *)
Theorem compile_line_deterministic :
  forall (env1 env2 : option Z) (line : string),
    fst (compile_line env1 line) = fst (compile_line env2 line)
    /\ ops (fst (compile_line env1 line)) = ops (fst (compile_line env2 line))
    /\ (Py.is_empty (Py.strip line) = false ->
        compile_line env1 line = compile_line env2 line)
    /\ (forall out env',
          compile_line env1 line = (out, Ok env') ->
          for_fold [line; line] compile_line env1 = (out ++ out, Ok env')).
Proof.
  intros env1 env2 line. split; [|split; [|split]].
  - apply compile_line_output_env.
  - f_equal. apply compile_line_output_env.
  - apply compile_line_env.
  - intros out env' H. cbn [for_fold]. rewrite H. cbn [bind].
    rewrite (compile_line_again _ _ _ _ H). cbn [bind]. unfold ret.
    now rewrite app_nil_r.
Qed.

Lemma compile_line_deterministic_witness :
  for_fold [line3; line3] compile_line (Some 1234)
  = ([CaseLabel 3;
      Extract (mkData "r" 5 0 10 0); Extract (mkData "g" 15 0 10 0);
      Extract (mkData "b" 25 0 10 0); Extract (mkData "r" 35 1 10 0);
      Extract (mkData "g" 45 1 10 0); Extract (mkData "b" 55 1 10 0);
      Break;
      CaseLabel 3;
      Extract (mkData "r" 5 0 10 0); Extract (mkData "g" 15 0 10 0);
      Extract (mkData "b" 25 0 10 0); Extract (mkData "r" 35 1 10 0);
      Extract (mkData "g" 45 1 10 0); Extract (mkData "b" 55 1 10 0);
      Break],
     Ok (Some 65)).
Proof.
  exact (proj2 (proj2 (proj2
           (compile_line_deterministic (Some 1234) None line3))) _ _ eq_refl).
Defined.

(* ================================================================== *)
(** ** The whole table: no registry *)

Lemma all_compile (lines : list string) :
  forallb compilesb lines = true -> Forall compiles lines.
Proof.
  intros H. apply Forall_forall. intros l Hl.
  rewrite forallb_forall in H. specialize (H l Hl).
  unfold compilesb in H. unfold compiles.
  destruct (compile_line None l) as [out [env|e]]; [|discriminate H].
  now exists out, env.
Qed.

Lemma for_fold_lines (lines : list string) (env : option Z) :
  Forall compiles lines ->
  exists env',
    for_fold lines compile_line env
    = (concat (map (fun l => fst (compile_line None l)) lines), Ok env').
Proof.
  intros H. revert env. induction H as [|l ls [out [e Hl]] _ IH]; intros env.
  - now exists env.
  - cbn [for_fold map concat].
    assert (Hl' : exists e', compile_line env l = (out, Ok e')).
    { destruct (Py.is_empty (Py.strip l)) eqn:E.
      - rewrite compile_line_blank in Hl by assumption. injection Hl as <- _.
        exists env. now apply compile_line_blank.
      - exists e. now rewrite (compile_line_env env None). }
    destruct Hl' as [e' Hl']. rewrite Hl', Hl. cbn [bind fst].
    destruct (IH e') as [env' ->]. now exists env'.
Qed.

(** Two lines of the same mode, one after the other. *)
Lemma duplicate_mode_accepted :
  script (String "010" ("3 m[4:0],r0[1:0]" ++ String "010" "3 m[4:0],g1[0]"))%string
  = ([SwitchMode; OpenBrace;
      CaseLabel 3; Extract (mkData "r" 5 0 2 0); Break;
      CaseLabel 3; Extract (mkData "g" 5 1 1 0); Break;
      CloseBrace],
     Ok (Some 6)).
Proof. reflexivity. Qed.

(** C7, as the code has it.  The script keeps no registry and never compares
    mode numbers: when every line compiles on its own, the script prints the
    two header lines, then for every line, in input order, what that line
    prints on its own, then the closing brace, and raises nothing; so two
    lines that declare the same mode both get their [case] block.  (The
    modes of [MODEREF] itself are pairwise different.) *)
Theorem lines_compiled_independently :
  forall (moderef : string),
    Forall compiles (Py.splitlines moderef) ->
    (exists env,
       script moderef
       = (SwitchMode :: OpenBrace
            :: (concat (map (fun l => fst (compile_line None l))
                            (Py.splitlines moderef))
                ++ [CloseBrace]),
          Ok env))
    /\ (forall l1 l2 mode out1 out2 e1 e2 env,
          compile_line None l1 = (CaseLabel mode :: out1, Ok e1) ->
          compile_line None l2 = (CaseLabel mode :: out2, Ok e2) ->
          exists env',
            for_fold [l1; l2] compile_line env
            = ((CaseLabel mode :: out1) ++ (CaseLabel mode :: out2), Ok env'))
    /\ map fst (programs (fst main))
       = [0; 1; 2; 6; 10; 14; 18; 22; 26; 30; 3; 7; 11; 15].
Proof.
  intros moderef H. split; [|split].
  - destruct (for_fold_lines _ None H) as [env' Hf].
    exists env'. unfold script. cbn [print bind]. rewrite Hf.
    cbn [bind ret app]. reflexivity.
  - intros l1 l2 mode out1 out2 e1 e2 env H1 H2.
    destruct (for_fold_lines [l1; l2] env) as [env' Hf].
    { repeat constructor; red; eauto. }
    exists env'. rewrite Hf. cbn [map concat]. rewrite H1, H2.
    cbn [fst]. now rewrite app_nil_r.
  - vm_compute. reflexivity.
Qed.

Lemma lines_compiled_independently_witness :
  exists env,
    script MODEREF
    = (SwitchMode :: OpenBrace
         :: (concat (map (fun l => fst (compile_line None l))
                         (Py.splitlines MODEREF))
             ++ [CloseBrace]),
       Ok env).
Proof.
  refine (proj1 (lines_compiled_independently MODEREF (all_compile _ _))).
  vm_compute. reflexivity.
Defined.

(* ================================================================== *)
(** ** Elements the loop body dies of *)

Lemma compile_assign_no_match (cursor : Z) (a : string) :
  Re.rmatch FIELD_RE a = None ->
  compile_assign cursor a = ([], Raise AssertionError).
Proof. intros H. unfold compile_assign. now rewrite H. Qed.

(** [z[3:0]] does match the pattern; it is the empty endpoint digit that
    [int] refuses. *)
Lemma compile_assign_z (cursor : Z) :
  compile_assign cursor "z[3:0]" = ([], Raise ValueError).
Proof.
  apply (compile_assign_no_endpoint cursor "z[3:0]"
           [(4%nat, "0"); (3%nat, "3"); (2%nat, ""); (1%nat, "z")] 3 0);
    (reflexivity || discriminate).
Qed.

(** The statements of the elements in front of [z[3:0]] are printed before
    the script dies, and an element outside the letters m, r, g, b goes
    through when it carries a digit. *)
Lemma ops_before_bad_token_are_emitted :
  compile_line None "3 m[4:0],r0[9:0],z[3:0],g0[9:0]"
  = ([CaseLabel 3; Extract (mkData "r" 5 0 10 0)], Raise ValueError)
  /\ ops (fst (compile_line None "3 m[4:0],r0[9:0],z[3:0],g0[9:0]")) <> []
  /\ Re.rmatch FIELD_RE "z[3:0]"
     = Some [(4%nat, "0"); (3%nat, "3"); (2%nat, ""); (1%nat, "z")]
  /\ compile_line None "3 m[4:0],z0[3:0]junk"
     = ([CaseLabel 3; Extract (mkData "z" 5 0 4 0); Break], Ok (Some 9)).
Proof. repeat split; try reflexivity; discriminate. Qed.

(** C6, as the code has it.  On a line of 7-bit text whose elements are
    [before], then an element that is [z[3:0]] or that the pattern does not
    match at its start, then [after]: the [case] label and whatever the
    elements of
    [before] print are printed, then the script dies ([ValueError] for
    [z[3:0]], whose empty endpoint digit is no number, [AssertionError] for
    an element without a match); nothing is printed for the bad element, for
    [after] or for any later line, not even the [break]. *)
Theorem bad_token_aborts :
  forall (env : option Z) (line mode_s : string) (mode : Z)
         (before after later : list string) (a : string)
         (out : list Line) (cur : Z),
    seven_bit line = true ->
    cut_line line = Some (mode_s, before ++ a :: after) ->
    Py.int mode_s = Some mode ->
    for_fold before compile_assign 0 = (out, Ok cur) ->
    a = "z[3:0]" \/ (seven_bit a = true /\ Re.rmatch FIELD_RE a = None) ->
    let e := if (a =? "z[3:0]")%string then ValueError else AssertionError in
    compile_assign cur a = ([], Raise e)
    /\ for_fold (before ++ a :: after) compile_assign 0 = (out, Raise e)
    /\ compile_line env line = (CaseLabel mode :: out, Raise e)
    /\ for_fold (line :: later) compile_line env
       = (CaseLabel mode :: out, Raise e).
Proof.
  intros env line mode_s mode before after later a out cur
         _ Hcut Hmode Hbefore Hbad e.
  assert (Ha : compile_assign cur a = ([], Raise e)).
  { subst e. destruct Hbad as [-> | [_ Hno]].
    - apply compile_assign_z.
    - destruct (String.eqb_spec a "z[3:0]") as [-> | _];
        [discriminate Hno | now apply compile_assign_no_match]. }
  assert (Hloop : for_fold (before ++ a :: after) compile_assign 0
                  = (out, Raise e)).
  { rewrite (for_fold_raise _ _ _ _ _ _ _ _ _ Hbefore Ha).
    now rewrite app_nil_r. }
  assert (Hline : compile_line env line = (CaseLabel mode :: out, Raise e)).
  { rewrite (compile_line_cut env line mode_s _ mode Hcut Hmode).
    rewrite Hloop. reflexivity. }
  repeat split; try assumption.
  cbn [for_fold]. now rewrite Hline.
Qed.

Lemma bad_token_aborts_witness :
  for_fold ["7 m[4:0],r0[9:0],z[3:0],g0[9:0]"; line3] compile_line None
  = ([CaseLabel 7; Extract (mkData "r" 5 0 10 0)], Raise ValueError).
Proof.
  exact (proj2 (proj2 (proj2
    (bad_token_aborts None "7 m[4:0],r0[9:0],z[3:0],g0[9:0]" "7" 7
       ["m[4:0]"; "r0[9:0]"] ["g0[9:0]"] [line3] "z[3:0]"
       [Extract (mkData "r" 5 0 10 0)] 15
       eq_refl eq_refl eq_refl eq_refl (or_introl eq_refl))))).
Defined.

(* ================================================================== *)
(** ** Reversed fields of the real table *)

(** The line of mode 15 has [r0[10:15]], which is written smaller number
    first and is expanded bit by bit. *)
Lemma moderef_has_reversed_field :
  In ("15", "r0[10:15]")
     (flat_map (fun row => map (pair (fst row)) (snd row))
               (table (Py.splitlines MODEREF)))
  /\ head_of [(4%nat, "15"); (3%nat, "10"); (2%nat, "0"); (1%nat, "r")] = Some 10
  /\ tail_of [(4%nat, "15"); (3%nat, "10"); (2%nat, "0"); (1%nat, "r")] = Some 15
  /\ is_reversed "r0[10:15]" = true
  /\ In BeginReverse (fst main).
Proof.
  split; [vm_compute; tauto|].
  split; [reflexivity|]. split; [reflexivity|]. split; [reflexivity|].
  vm_compute. tauto.
Qed.

(** C8, as the code has it.  The table has exactly six fields written
    smaller number first: [r0], [g0] and [b0] with [[10:11]] in mode 11 and
    with [[10:15]] in mode 15; the twelve other modes have none, and the
    output has one reverse-read comment pair for each of the six. *)
Theorem moderef_reversed_fields :
  reversed_fields MODEREF
  = [("11", "r0[10:11]"); ("11", "g0[10:11]"); ("11", "b0[10:11]");
     ("15", "r0[10:15]"); ("15", "g0[10:15]"); ("15", "b0[10:15]")]
  /\ length (filter (fun l => match l with BeginReverse => true | _ => false end)
                    (fst main)) = 6%nat.
Proof. split; vm_compute; reflexivity. Qed.

(* ================================================================== *)
(** ** The cursor *)

Lemma compile_assign_head_none (cursor : Z) (a : string) m :
  Re.rmatch FIELD_RE a = Some m ->
  head_of m = None ->
  compile_assign cursor a = ([], Raise ValueError).
Proof.
  intros Hm Hh. unfold compile_assign. rewrite Hm.
  unfold head_of in Hh. unfold py_int at 1. now rewrite Hh.
Qed.

Lemma compile_assign_tail_none (cursor : Z) (a : string) m h :
  Re.rmatch FIELD_RE a = Some m ->
  head_of m = Some h ->
  tail_of m = None ->
  compile_assign cursor a = ([], Raise ValueError).
Proof.
  intros Hm Hh Ht. unfold compile_assign. rewrite Hm.
  unfold tail_of, head_of in *. unfold py_int at 1. rewrite Hh, bind_ret_l.
  destruct (truthy (Re.group m 4)); [|congruence].
  unfold py_int at 1. now rewrite Ht.
Qed.

Lemma StronglySorted_app {A} (R : A -> A -> Prop) (l1 l2 : list A) :
  StronglySorted R l1 ->
  StronglySorted R l2 ->
  (forall x y, In x l1 -> In y l2 -> R x y) ->
  StronglySorted R (l1 ++ l2).
Proof.
  intros H1 H2 H. induction H1 as [|x l1 Hl1 IH Hx]; [exact H2|].
  cbn [app]. constructor.
  - apply IH. intros x' y Hx' Hy. apply H; [now right|exact Hy].
  - apply Forall_app. split; [exact Hx|].
    apply Forall_forall. intros y Hy. apply H; [now left|exact Hy].
Qed.

Lemma seq_offsets_sorted (cursor : Z) (k a : nat) :
  StronglySorted Z.le
    (map (fun i => cursor + i) (map Z.of_nat (seq a k))).
Proof.
  revert a. induction k as [|k IH]; intros a; cbn [seq map]; constructor.
  - apply IH.
  - apply Forall_forall. intros y Hy.
    apply in_map_iff in Hy. destruct Hy as [i [<- Hi]].
    apply in_map_iff in Hi. destruct Hi as [j [<- Hj]].
    apply in_seq in Hj. lia.
Qed.

(** An element that compiles moves the cursor by its width, and every
    statement it prints reads at an offset from the old cursor up to, and
    not including, the new one, in increasing order. *)
Lemma compile_assign_ok (cursor : Z) (a : string) out cur' :
  compile_assign cursor a = (out, Ok cur') ->
  cur' = cursor + field_width a
  /\ 1 <= field_width a
  /\ Forall (fun d => cursor <= offset d < cur') (ops out)
  /\ StronglySorted Z.le (map offset (ops out)).
Proof.
  intros H.
  destruct (Re.rmatch FIELD_RE a) as [m|] eqn:Hm;
    [|rewrite compile_assign_no_match in H by assumption; discriminate H].
  destruct (head_of m) as [h|] eqn:Hh;
    [|rewrite (compile_assign_head_none _ _ m) in H by assumption;
      discriminate H].
  destruct (tail_of m) as [t|] eqn:Ht;
    [|rewrite (compile_assign_tail_none _ _ m h) in H by assumption;
      discriminate H].
  assert (Hw : field_width a = Z.max h t - Z.min h t + 1).
  { unfold field_width. now rewrite Hm, Hh, Ht. }
  rewrite Hw.
  destruct (String.eqb_spec (text (Re.group m 1)) "m") as [Hc|Hc].
  - rewrite (compile_assign_selector cursor a m h t) in H by assumption.
    injection H as <- <-. cbn [ops map].
    repeat split; try constructor; lia.
  - destruct (Py.int (text (Re.group m 2))) as [e|] eqn:He;
      [|rewrite (compile_assign_no_endpoint cursor a m h t) in H by assumption;
        discriminate H].
    destruct (Z_le_gt_dec t h) as [Hle|Hgt].
    + rewrite (compile_assign_forward cursor a m h t Hm Hh Ht e Hc He Hle) in H.
      injection H as <- <-. cbn [ops map offset].
      repeat split; try lia.
      * constructor; [cbn; lia|constructor].
      * repeat constructor.
    + assert (Hlt : h < t) by lia.
      rewrite (compile_assign_reverse cursor a m h t Hm Hh Ht e Hc He Hlt) in H.
      injection H as <- <-. cbn [ops].
      rewrite ops_app, <- (map_map _ Extract), ops_map_extract.
      cbn [ops]. rewrite app_nil_r.
      repeat split; try lia.
      * apply Forall_forall. intros d Hd.
        apply in_map_iff in Hd. destruct Hd as [i [<- Hi]].
        apply in_range_iff in Hi. cbn [offset]. lia.
      * rewrite map_map. cbn [offset]. unfold range. apply seq_offsets_sorted.
Qed.

Lemma for_fold_assigns_ok (assigns : list string) :
  forall cursor out cur',
    for_fold assigns compile_assign cursor = (out, Ok cur') ->
    cur' = cursor + total_width assigns
    /\ cursor <= cur'
    /\ Forall (fun d => cursor <= offset d < cur') (ops out)
    /\ StronglySorted Z.le (map offset (ops out)).
Proof.
  induction assigns as [|a assigns IH]; intros cursor out cur' H.
  - injection H as <- <-. cbn. repeat split; try constructor; lia.
  - cbn [for_fold] in H. apply bind_ok_inv in H.
    destruct H as [out1 [cur1 [out2 [Ha [Hrest ->]]]]].
    apply compile_assign_ok in Ha. destruct Ha as [-> [Hw [Hb1 Hs1]]].
    apply IH in Hrest. destruct Hrest as [-> [Hle [Hb2 Hs2]]].
    unfold total_width. cbn [map fold_right]. fold (total_width assigns).
    rewrite ops_app, map_app.
    split; [lia|]. split; [lia|]. split.
    + apply Forall_app. split.
      * eapply Forall_impl; [|exact Hb1]. cbn beta. intros d Hd. lia.
      * eapply Forall_impl; [|exact Hb2]. cbn beta. intros d Hd. lia.
    + apply StronglySorted_app; [exact Hs1|exact Hs2|].
      intros x y Hx Hy.
      apply in_map_iff in Hx. destruct Hx as [d1 [<- Hd1]].
      apply in_map_iff in Hy. destruct Hy as [d2 [<- Hd2]].
      rewrite Forall_forall in Hb1, Hb2.
      specialize (Hb1 d1 Hd1). specialize (Hb2 d2 Hd2). lia.
Qed.

(** C4. In the program of one line the offsets read are non-decreasing in
    the order the statements are printed (each is at most every later one),
    and when the line is done the cursor is the sum of the widths of all
    its fields, the selector included; for the lines of [MODEREF] that is
    77 in modes 0, 1, 2, 6, 10, 14, 18, 22, 26, 30 and 65 in modes 3, 7,
    11, 15. *)
Theorem cursor_monotone_and_total :
  forall (env : option Z) (line mode_s : string) (assigns : list string)
         (out : list Line) (env' : option Z),
    cut_line line = Some (mode_s, assigns) ->
    compile_line env line = (out, Ok env') ->
    StronglySorted Z.le (map offset (ops out))
    /\ Sorted Z.le (map offset (ops out))
    /\ env' = Some (total_width assigns)
    /\ map line_cursor (Py.splitlines MODEREF)
       = [None; Some (0, 77); Some (1, 77); Some (2, 77); Some (6, 77);
          Some (10, 77); Some (14, 77); Some (18, 77); Some (22, 77);
          Some (26, 77); Some (30, 77); Some (3, 65); Some (7, 65);
          Some (11, 65); Some (15, 65)]
    /\ map (fun row => (fst row, total_width (snd row)))
           (table (Py.splitlines MODEREF))
       = [("0", 77); ("1", 77); ("2", 77); ("6", 77); ("10", 77);
          ("14", 77); ("18", 77); ("22", 77); ("26", 77); ("30", 77);
          ("3", 65); ("7", 65); ("11", 65); ("15", 65)].
Proof.
  intros env line mode_s assigns out env' Hcut H.
  assert (Hmain : StronglySorted Z.le (map offset (ops out))
                  /\ env' = Some (total_width assigns)).
  { destruct (Py.int mode_s) as [mode|] eqn:Hmode.
    - rewrite (compile_line_cut env line mode_s assigns mode Hcut Hmode) in H.
      cbn [print bind] in H.
      destruct (for_fold assigns compile_assign 0) as [o [c|e]] eqn:Hf;
        cbn [bind ret app] in H; [|discriminate H].
      injection H as <- <-.
      apply for_fold_assigns_ok in Hf. destruct Hf as [-> [_ [_ Hs]]].
      cbn [ops]. rewrite ops_app. cbn [ops]. rewrite app_nil_r.
      split; [exact Hs|reflexivity].
    - pose proof (cut_line_not_blank _ _ Hcut) as Hnb.
      unfold compile_line in H. rewrite Hnb in H. unfold cut_line in Hcut.
      destruct (Py.split (Py.strip line)) as [|x [|y [|z l]]];
        try discriminate Hcut.
      injection Hcut as -> <-. unfold py_int in H. rewrite Hmode in H.
      discriminate H. }
  destruct Hmain as [Hs ->].
  split; [exact Hs|]. split; [now apply StronglySorted_Sorted|].
  split; [reflexivity|]. split; vm_compute; reflexivity.
Qed.

Lemma cursor_monotone_and_total_witness :
  StronglySorted Z.le
    (map offset (ops (fst (compile_line None "15 m[4:0],r0[9:0],b0[10:15]"))))
  /\ snd (compile_line None "15 m[4:0],r0[9:0],b0[10:15]") = Ok (Some 21).
Proof.
  pose proof (cursor_monotone_and_total None "15 m[4:0],r0[9:0],b0[10:15]"
                "15" ["m[4:0]"; "r0[9:0]"; "b0[10:15]"]
                (fst (compile_line None "15 m[4:0],r0[9:0],b0[10:15]"))
                (Some 21) eq_refl eq_refl) as H.
  split; [exact (proj1 H)|reflexivity].
Defined.

(* ================================================================== *)
(** ** Every destination bit exactly once *)







(* ================================================================== *)
(** ** The elements the pattern accepts *)

Lemma append_assoc (a b c : string) :
  ((a ++ b) ++ c)%string = (a ++ (b ++ c))%string.
Proof. induction a as [|x a IH]; [reflexivity|]. cbn. now rewrite IH. Qed.

Lemma many_inv_text {R} (p : ascii -> bool) (s : string)
      (k : string -> string -> option R) (r : R) :
  Re.many p s k = Some r ->
  exists t rest,
    s = (t ++ rest)%string /\ all_chars p t = true /\ k t rest = Some r.
Proof.
  revert k. induction s as [|c s IH]; intros k H; cbn [Re.many] in H.
  - now exists "", "".
  - destruct (p c) eqn:Hp; [|now exists "", (String c s)].
    destruct (Re.many p s (fun t rest => k (String c t) rest)) as [r'|] eqn:E.
    + injection H as ->. apply IH in E. destruct E as [t [rest [-> [Ht Hk]]]].
      exists (String c t), rest. cbn [all_chars]. now rewrite Hp, Ht.
    + now exists "", (String c s).
Qed.

(** The greedy loop takes a whole run when the continuation accepts what
    comes after it. *)
Lemma many_greedy {R} (p : ascii -> bool) (t rest : string)
      (k : string -> string -> option R) (r : R) :
  all_chars p t = true ->
  (forall c r', rest = String c r' -> p c = false) ->
  k t rest = Some r ->
  Re.many p (t ++ rest) k = Some r.
Proof.
  revert k. induction t as [|d t IH]; intros k Ht Hrest Hk.
  - cbn [append]. destruct rest as [|c r']; [exact Hk|].
    cbn [Re.many]. now rewrite (Hrest c r' eq_refl).
  - cbn [all_chars] in Ht. apply andb_true_iff in Ht. destruct Ht as [Hd Ht].
    cbn [append Re.many]. rewrite Hd.
    now rewrite (IH (fun t0 r0 => k (String d t0) r0) Ht Hrest Hk).
Qed.

Lemma digits1_inv (g : string) :
  digits1 g = true ->
  exists d t, g = String d t /\ Py.is_digit d = true
              /\ all_chars Py.is_digit t = true.
Proof.
  unfold digits1. destruct g as [|d t]; [discriminate|].
  cbn [Py.is_empty negb andb all_chars]. intros H.
  apply andb_true_iff in H. destruct H as [Hd Ht]. now exists d, t.
Qed.

Lemma range_re_text (s : string) (cs m : Re.captures) :
  Re.exec RANGE_RE s cs (fun _ _ cs' => Some cs') = Some m ->
  exists g3 g4 rest,
    s = String "[" (g3 ++
          match g4 with
          | Some g => String ":" (g ++ String "]" rest)
          | None => String "]" rest
          end)%string
    /\ digits1 g3 = true
    /\ match g4 with Some g => digits1 g = true | None => True end
    /\ m = match g4 with
           | Some g => (4%nat, g) :: (3%nat, g3) :: cs
           | None => (3%nat, g3) :: cs
           end.
Proof.
  unfold RANGE_RE. cbn [Re.exec Re.Lit]. intros H.
  destruct s as [|c0 s]; [discriminate H|].
  destruct (Ascii.eqb_spec "[" c0) as [<-|_]; [|discriminate H].
  destruct s as [|d3 s]; [discriminate H|].
  destruct (Py.is_digit d3) eqn:Hd3; [|discriminate H].
  apply many_inv_text in H. destruct H as [t3 [rest [-> [Ht3 H]]]].
  assert (Hg3 : digits1 (String d3 t3) = true).
  { unfold digits1. cbn [Py.is_empty negb andb all_chars]. now rewrite Hd3. }
  match type of H with
  | match ?X with Some x => Some x | None => _ end = _ =>
      destruct X as [m'|] eqn:E
  end.
  - injection H as ->.
    destruct rest as [|c1 rest]; [discriminate E|].
    destruct (Ascii.eqb_spec ":" c1) as [<-|_]; [|discriminate E].
    destruct rest as [|d4 rest]; [discriminate E|].
    destruct (Py.is_digit d4) eqn:Hd4; [|discriminate E].
    apply many_inv_text in E. destruct E as [t4 [rest' [-> [Ht4 E]]]].
    destruct rest' as [|c2 rest']; [discriminate E|].
    destruct (Ascii.eqb_spec "]" c2) as [<-|_]; [|discriminate E].
    injection E as <-.
    exists (String d3 t3), (Some (String d4 t4)), rest'.
    split; [reflexivity|]. split; [exact Hg3|]. split; [|reflexivity].
    unfold digits1. cbn [Py.is_empty negb andb all_chars]. now rewrite Hd4.
  - destruct rest as [|c1 rest]; [discriminate H|].
    destruct (Ascii.eqb_spec "]" c1) as [<-|_]; [|discriminate H].
    injection H as <-.
    exists (String d3 t3), None, rest. now repeat split.
Qed.

Lemma range_re_eval (g3 : string) (g4 : option string) (rest : string)
      (cs : Re.captures) :
  digits1 g3 = true ->
  match g4 with Some g => digits1 g = true | None => True end ->
  Re.exec RANGE_RE
    (String "[" (g3 ++
       match g4 with
       | Some g => String ":" (g ++ String "]" rest)
       | None => String "]" rest
       end))
    cs (fun _ _ cs' => Some cs')
  = Some match g4 with
         | Some g => (4%nat, g) :: (3%nat, g3) :: cs
         | None => (3%nat, g3) :: cs
         end.
Proof.
  intros Hg3 Hg4. apply digits1_inv in Hg3.
  destruct Hg3 as [d3 [t3 [-> [Hd3 Ht3]]]].
  unfold RANGE_RE. cbn [Re.exec Re.Lit append]. rewrite Ascii.eqb_refl, Hd3.
  apply many_greedy; [exact Ht3| |].
  - destruct g4; intros c r' E; injection E as <- _; reflexivity.
  - destruct g4 as [g|].
    + apply digits1_inv in Hg4. destruct Hg4 as [d4 [t4 [-> [Hd4 Ht4]]]].
      cbn [append]. rewrite Ascii.eqb_refl, Hd4.
      rewrite (many_greedy Py.is_digit t4 (String "]" rest) _
                 ((4%nat, String d4 t4) :: (3%nat, String d3 t3) :: cs) Ht4).
      * reflexivity.
      * intros c r' E. injection E as <- _. reflexivity.
      * now rewrite Ascii.eqb_refl.
    + change (Ascii.eqb ":" "]") with false. cbn iota.
      now rewrite Ascii.eqb_refl.
Qed.

(** What the pattern matches, and with which groups. *)
Lemma rmatch_field_text :
  forall (a : string) (m : Re.captures),
    Re.rmatch FIELD_RE a = Some m <->
    exists c g2 g3 g4 rest,
      a = field_text c g2 g3 g4 rest
      /\ Py.is_word c = true
      /\ digit01 g2 = true
      /\ digits1 g3 = true
      /\ match g4 with Some g => digits1 g = true | None => True end
      /\ m = field_captures c g2 g3 g4.
Proof.
  intros a m. split.
  - unfold Re.rmatch, FIELD_RE. fold RANGE_RE. cbn [Re.exec]. intros H.
    destruct a as [|c s]; [discriminate H|].
    destruct (Py.is_word c) eqn:Hc; [|discriminate H].
    match type of H with
    | match ?X with Some x => Some x | None => ?Y end = _ =>
        destruct X as [m'|] eqn:E
    end.
    + injection H as ->.
      destruct s as [|d s]; [discriminate E|].
      destruct (Py.is_digit d) eqn:Hd; [|discriminate E].
      apply range_re_text in E.
      destruct E as [g3 [g4 [rest [-> [Hg3 [Hg4 ->]]]]]].
      exists c, (String d ""), g3, g4, rest. unfold field_text, field_captures.
      cbn [append digit01]. destruct g4; now repeat split.
    + apply range_re_text in H.
      destruct H as [g3 [g4 [rest [-> [Hg3 [Hg4 ->]]]]]].
      exists c, "", g3, g4, rest. unfold field_text, field_captures.
      cbn [append digit01]. destruct g4; now repeat split.
  - intros [c [g2 [g3 [g4 [rest [-> [Hc [Hg2 [Hg3 [Hg4 ->]]]]]]]]]].
    unfold Re.rmatch, FIELD_RE, field_text. fold RANGE_RE. cbn [Re.exec].
    rewrite Hc.
    destruct g2 as [|d [|d' g2]]; cbn [digit01] in Hg2; try discriminate Hg2.
    + cbn [append]. change (Py.is_digit "[") with false. cbn iota.
      rewrite (range_re_eval g3 g4 rest _ Hg3 Hg4).
      unfold field_captures. now destruct g4.
    + cbn [append]. rewrite Hg2.
      rewrite (range_re_eval g3 g4 rest _ Hg3 Hg4).
      unfold field_captures. now destruct g4.
Qed.

(** X2. Text after the closing bracket is never looked at: when an element
    matches, the element followed by anything matches with the same groups
    and is compiled to the same statements. *)
Theorem trailing_text_ignored :
  forall (cursor : Z) (a junk : string) (m : Re.captures),
    Re.rmatch FIELD_RE a = Some m ->
    Re.rmatch FIELD_RE (a ++ junk) = Some m
    /\ compile_assign cursor (a ++ junk) = compile_assign cursor a.
Proof.
  intros cursor a junk m H.
  assert (H' : Re.rmatch FIELD_RE (a ++ junk) = Some m).
  { apply rmatch_field_text in H.
    destruct H as [c [g2 [g3 [g4 [rest [-> [Hc [Hg2 [Hg3 [Hg4 ->]]]]]]]]]].
    apply rmatch_field_text. exists c, g2, g3, g4, (rest ++ junk)%string.
    split; [|now repeat split].
    unfold field_text. cbn [append]. f_equal.
    rewrite append_assoc. f_equal. cbn [append]. f_equal.
    rewrite append_assoc. f_equal.
    destruct g4 as [g|]; cbn [append]; [|reflexivity].
    f_equal. now rewrite append_assoc. }
  split; [exact H'|]. unfold compile_assign. now rewrite H, H'.
Qed.

Lemma trailing_text_ignored_witness :
  compile_assign 5 ("r0[9:0]" ++ " and the rest") = compile_assign 5 "r0[9:0]".
Proof.
  exact (proj2 (trailing_text_ignored 5 "r0[9:0]" " and the rest"
                  [(4%nat, "0"); (3%nat, "9"); (2%nat, "0"); (1%nat, "r")]
                  eq_refl)).
Defined.

(** The endpoint text of a match is nothing or one digit, and [int] reads
    it exactly when it is a digit. *)
Lemma endpoint_text_cases (a : string) (m : Re.captures) :
  Re.rmatch FIELD_RE a = Some m ->
  (text (Re.group m 2) = "" /\ Py.int (text (Re.group m 2)) = None)
  \/ (exists d, text (Re.group m 2) = String d ""
                /\ Py.int (text (Re.group m 2)) = Some (Py.digit_val d)).
Proof.
  intros H. apply rmatch_field_text in H.
  destruct H as [c [g2 [g3 [g4 [rest [_ [_ [Hg2 [_ [_ ->]]]]]]]]]].
  assert (E : text (Re.group (field_captures c g2 g3 g4) 2) = g2)
    by now destruct g4.
  rewrite E.
  destruct g2 as [|d [|d' g2]]; cbn [digit01] in Hg2; try discriminate Hg2.
  - left. now split.
  - right. exists d. split; [reflexivity|]. now apply int_digit.
Qed.

(** X3. What can happen to one element of 7-bit text.  It compiles exactly
    when the pattern matches and the element is a selector or has its
    endpoint
    digit, and then the cursor moves by the width of the field, which is at
    least one bit.  Otherwise the script dies and the element has printed
    nothing: of an [AssertionError] exactly when the pattern does not
    match, of a [ValueError] exactly when it matches, the letter is not [m]
    and the endpoint digit is missing. *)
Theorem compile_assign_outcomes :
  forall (cursor : Z) (a : string) (out : list Line) (r : result Z),
    seven_bit a = true ->
    compile_assign cursor a = (out, r) ->
    match r with
    | Ok cur' =>
        cur' = cursor + field_width a /\ 1 <= field_width a
        /\ exists m, Re.rmatch FIELD_RE a = Some m
                     /\ (text (Re.group m 1) = "m"
                         \/ text (Re.group m 2) <> "")
    | Raise e =>
        out = []
        /\ (e = AssertionError <-> Re.rmatch FIELD_RE a = None)
        /\ (e = ValueError <->
            exists m, Re.rmatch FIELD_RE a = Some m
                      /\ text (Re.group m 1) <> "m"
                      /\ text (Re.group m 2) = "")
    end.
Proof.
  intros cursor a out r _ H.
  destruct (Re.rmatch FIELD_RE a) as [m|] eqn:Hm.
  - destruct (matched_field_numbers a m Hm) as [h [t [Hh [Ht _]]]].
    destruct (String.eqb_spec (text (Re.group m 1)) "m") as [Hc|Hc].
    + rewrite (compile_assign_selector cursor a m h t Hm Hh Ht Hc) in H.
      injection H as <- <-.
      assert (Hw : field_width a = Z.max h t - Z.min h t + 1)
        by (unfold field_width; now rewrite Hm, Hh, Ht).
      rewrite Hw. split; [reflexivity|]. split; [lia|].
      exists m. split; [reflexivity|now left].
    + destruct (endpoint_text_cases a m Hm) as [[Hg He]|[d [Hg He]]].
      * rewrite (compile_assign_no_endpoint cursor a m h t Hm Hh Ht Hc He) in H.
        injection H as <- <-. split; [reflexivity|]. split.
        -- split; discriminate.
        -- split; [|reflexivity]. intros _. now exists m.
      * destruct r as [cur'|e].
        -- destruct (compile_assign_ok cursor a out cur' H) as [-> [Hw _]].
           split; [reflexivity|]. split; [exact Hw|].
           exists m. split; [reflexivity|]. right. rewrite Hg. discriminate.
        -- exfalso. destruct (Z_le_gt_dec t h) as [Hle|Hgt].
           ++ rewrite (compile_assign_forward cursor a m h t Hm Hh Ht _ Hc He Hle)
                in H. discriminate H.
           ++ assert (Hlt : h < t) by lia.
              rewrite (compile_assign_reverse cursor a m h t Hm Hh Ht _ Hc He Hlt)
                in H. discriminate H.
  - rewrite (compile_assign_no_match cursor a Hm) in H.
    injection H as <- <-. split; [reflexivity|]. split.
    + now split.
    + split; [discriminate|]. intros [m [Hm' _]]. discriminate Hm'.
Qed.

Lemma compile_assign_outcomes_witness :
  [] = @nil Line
  /\ (ValueError = AssertionError <-> Re.rmatch FIELD_RE "g[4]" = None)
  /\ (ValueError = ValueError <->
      exists m, Re.rmatch FIELD_RE "g[4]" = Some m
                /\ text (Re.group m 1) <> "m"
                /\ text (Re.group m 2) = "").
Proof.
  exact (compile_assign_outcomes 0 "g[4]" [] (Raise ValueError)
           eq_refl eq_refl).
Defined.

(* ================================================================== *)
(** ** The cursor only positions the program *)

Lemma shift_result_ret (k c : Z) :
  (map (shift k) [], shift_result k (Ok c)) = ret (c + k).
Proof. reflexivity. Qed.





(* ================================================================== *)
(** ** Source bits: never read twice *)

Lemma bits_read_app (d1 d2 : list Data) :
  bits_read (d1 ++ d2) = bits_read d1 + bits_read d2.
Proof.
  unfold bits_read. induction d1 as [|d d1 IH]; [reflexivity|].
  cbn [app map fold_right]. rewrite IH. lia.
Qed.

Lemma seq_reads (c : string) (cursor e t : Z) (k a : nat) :
  let g := fun i => mkData c (cursor + i) e 1 (t - i) in
  StronglySorted ends_before (map g (map Z.of_nat (seq a k)))
  /\ bits_read (map g (map Z.of_nat (seq a k))) = Z.of_nat k.
Proof.
  intros g. revert a. induction k as [|k IH]; intros a.
  - split; [constructor|reflexivity].
  - destruct (IH (S a)) as [Hs Hb]. cbn [seq map]. split.
    + constructor; [exact Hs|].
      apply Forall_forall. intros d Hd.
      apply in_map_iff in Hd. destruct Hd as [i [<- Hi]].
      apply in_map_iff in Hi. destruct Hi as [j [<- Hj]].
      apply in_seq in Hj. unfold ends_before, g. cbn [offset numbits]. lia.
    + unfold bits_read in *. cbn [map fold_right numbits g]. rewrite Hb. lia.
Qed.

Lemma compile_assign_reads (cursor : Z) (a : string) out cur' :
  compile_assign cursor a = (out, Ok cur') ->
  StronglySorted ends_before (ops out)
  /\ Forall (fun d => cursor <= offset d /\ 1 <= numbits d
                      /\ offset d + numbits d <= cur') (ops out)
  /\ bits_read (ops out) = (if is_selector a then 0 else field_width a).
Proof.
  intros H.
  destruct (Re.rmatch FIELD_RE a) as [m|] eqn:Hm;
    [|rewrite compile_assign_no_match in H by assumption; discriminate H].
  destruct (matched_field_numbers a m Hm) as [h [t [Hh [Ht _]]]].
  assert (Hw : field_width a = Z.max h t - Z.min h t + 1)
    by (unfold field_width; now rewrite Hm, Hh, Ht).
  unfold is_selector. rewrite Hm, Hw.
  destruct (String.eqb_spec (text (Re.group m 1)) "m") as [Hc|Hc].
  - rewrite (compile_assign_selector cursor a m h t Hm Hh Ht Hc) in H.
    injection H as <- <-. cbn [ops]. repeat split; constructor.
  - destruct (Py.int (text (Re.group m 2))) as [e|] eqn:He;
      [|rewrite (compile_assign_no_endpoint cursor a m h t) in H by assumption;
        discriminate H].
    destruct (Z_le_gt_dec t h) as [Hle|Hgt].
    + rewrite (compile_assign_forward cursor a m h t Hm Hh Ht e Hc He Hle) in H.
      injection H as <- <-. cbn [ops]. split; [|split].
      * repeat constructor.
      * constructor; [cbn [offset numbits]; lia|constructor].
      * unfold bits_read. cbn. lia.
    + assert (Hlt : h < t) by lia.
      rewrite (compile_assign_reverse cursor a m h t Hm Hh Ht e Hc He Hlt) in H.
      injection H as <- <-. cbn [ops].
      rewrite ops_app, <- (map_map _ Extract), ops_map_extract.
      cbn [ops]. rewrite app_nil_r. unfold range.
      destruct (seq_reads (text (Re.group m 1)) cursor e t
                  (Z.to_nat (t - h + 1)) 0) as [Hs Hb].
      cbv zeta in Hs, Hb. split; [exact Hs|]. split.
      * apply Forall_forall. intros d Hd.
        apply in_map_iff in Hd. destruct Hd as [i [<- Hi]].
        apply in_map_iff in Hi. destruct Hi as [j [<- Hj]].
        apply in_seq in Hj. cbn [offset numbits]. lia.
      * rewrite Hb. lia.
Qed.

(** X5. No source bit is read twice and none outside the line: in the
    program of an element list that compiles, every statement has read all
    its bits before any later statement starts, every statement reads at
    least one bit and stays between the starting cursor and the final one,
    and the bits the statements read plus the bits of the selector fields
    are exactly the distance the cursor has moved. *)
Theorem reads_disjoint_and_exhaustive :
  forall (assigns : list string) (cursor : Z) (out : list Line) (cur' : Z),
    for_fold assigns compile_assign cursor = (out, Ok cur') ->
    StronglySorted ends_before (ops out)
    /\ Forall (fun d => cursor <= offset d /\ 1 <= numbits d
                        /\ offset d + numbits d <= cur') (ops out)
    /\ cur' - cursor
       = bits_read (ops out) + total_width (filter is_selector assigns).
Proof.
  induction assigns as [|a assigns IH]; intros cursor out cur' H.
  - injection H as <- <-. cbn. repeat split; try constructor. lia.
  - cbn [for_fold] in H. apply bind_ok_inv in H.
    destruct H as [out1 [cur1 [out2 [Ha [Hrest ->]]]]].
    pose proof (compile_assign_ok cursor a out1 cur1 Ha) as [Hc1 [Hw1 _]].
    pose proof (for_fold_assigns_ok assigns cur1 out2 cur' Hrest) as [_ [Hle _]].
    apply compile_assign_reads in Ha. destruct Ha as [Hs1 [Hb1 Hn1]].
    apply IH in Hrest. destruct Hrest as [Hs2 [Hb2 Hn2]].
    rewrite ops_app, bits_read_app. split; [|split].
    + apply StronglySorted_app; [exact Hs1|exact Hs2|].
      intros x y Hx Hy. rewrite Forall_forall in Hb1, Hb2.
      specialize (Hb1 x Hx). specialize (Hb2 y Hy). unfold ends_before. lia.
    + apply Forall_app. split.
      * eapply Forall_impl; [|exact Hb1]. cbn beta. intros d Hd. lia.
      * eapply Forall_impl; [|exact Hb2]. cbn beta. intros d Hd. lia.
    + rewrite Hn1. cbn [filter].
      destruct (is_selector a); unfold total_width in *;
        cbn [map fold_right]; lia.
Qed.

Lemma reads_disjoint_and_exhaustive_witness :
  65 - 0
  = bits_read (ops (fst (for_fold (Py.split_on "," "m[4:0],r0[9:0],g0[9:0],b0[9:0],r1[3:0],r0[10:15],g1[3:0],g0[10:15],b1[3:0],b0[10:15]")
                                   compile_assign 0)))
    + total_width (filter is_selector (Py.split_on "," "m[4:0],r0[9:0],g0[9:0],b0[9:0],r1[3:0],r0[10:15],g1[3:0],g0[10:15],b1[3:0],b0[10:15]")).
Proof.
  exact (proj2 (proj2 (reads_disjoint_and_exhaustive
           (Py.split_on "," "m[4:0],r0[9:0],g0[9:0],b0[9:0],r1[3:0],r0[10:15],g1[3:0],g0[10:15],b1[3:0],b0[10:15]")
           0 _ 65 eq_refl))).
Defined.

(* ================================================================== *)
(** ** Destination bits of one field *)

Lemma writers_map (g : Z -> Data) (l : list Z) (b : Z) :
  writers (map g l) b = length (filter (fun i => covers (g i) b) l).
Proof.
  unfold writers. induction l as [|i l IH]; [reflexivity|].
  cbn [map filter]. destruct (covers (g i) b); cbn [length]; now rewrite IH.
Qed.

Lemma count_seq (k : Z) (n a : nat) :
  length (filter (fun i => i =? k) (map Z.of_nat (seq a n)))
  = if (Z.of_nat a <=? k) && (k <? Z.of_nat a + Z.of_nat n)
    then 1%nat else 0%nat.
Proof.
  revert a. induction n as [|n IH]; intros a.
  - cbn [seq map filter length].
    destruct (Z.leb_spec (Z.of_nat a) k), (Z.ltb_spec k (Z.of_nat a + Z.of_nat 0));
      cbn [andb]; try reflexivity; lia.
  - cbn [seq map filter].
    destruct (Z.eqb_spec (Z.of_nat a) k) as [E|E]; cbn [length]; rewrite IH.
    + destruct (Z.leb_spec (Z.of_nat (S a)) k); [lia|]. cbn [andb].
      destruct (Z.leb_spec (Z.of_nat a) k), (Z.ltb_spec k (Z.of_nat a + Z.of_nat (S n)));
        cbn [andb]; try reflexivity; lia.
    + destruct (Z.leb_spec (Z.of_nat (S a)) k),
               (Z.ltb_spec k (Z.of_nat (S a) + Z.of_nat n)),
               (Z.leb_spec (Z.of_nat a) k),
               (Z.ltb_spec k (Z.of_nat a + Z.of_nat (S n)));
        cbn [andb]; try reflexivity; lia.
Qed.

(** X6. A field that is not the selector writes every bit of the range it
    names exactly once and no other bit, whichever way the range is
    written, and all its statements go to the field's own channel and
    endpoint. *)
Theorem field_written_once :
  forall (cursor : Z) (a : string) (m : Re.captures) (h t : Z)
         (out : list Line) (cur' : Z),
    Re.rmatch FIELD_RE a = Some m ->
    head_of m = Some h ->
    tail_of m = Some t ->
    text (Re.group m 1) <> "m" ->
    compile_assign cursor a = (out, Ok cur') ->
    (forall b : Z,
       writers (ops out) b
       = if (Z.min h t <=? b) && (b <=? Z.max h t) then 1%nat else 0%nat)
    /\ Forall (fun d => channel d = text (Re.group m 1)
                        /\ Py.int (text (Re.group m 2)) = Some (endpoint d))
              (ops out).
Proof.
  intros cursor a m h t out cur' Hm Hh Ht Hc H.
  destruct (Py.int (text (Re.group m 2))) as [e|] eqn:He;
    [|rewrite (compile_assign_no_endpoint cursor a m h t) in H by assumption;
      discriminate H].
  destruct (Z_le_gt_dec t h) as [Hle|Hgt].
  - rewrite (compile_assign_forward cursor a m h t Hm Hh Ht e Hc He Hle) in H.
    injection H as <- <-. cbn [ops]. split.
    + intros b. unfold writers, covers. cbn [filter firstbit numbits].
      destruct (Z.leb_spec t b), (Z.ltb_spec b (t + (h - t + 1))),
               (Z.leb_spec (Z.min h t) b), (Z.leb_spec b (Z.max h t));
        cbn [andb length]; try reflexivity; lia.
    + now repeat constructor.
  - assert (Hlt : h < t) by lia.
    rewrite (compile_assign_reverse cursor a m h t Hm Hh Ht e Hc He Hlt) in H.
    injection H as <- <-. cbn [ops].
    rewrite ops_app, <- (map_map _ Extract), ops_map_extract.
    cbn [ops]. rewrite app_nil_r. split.
    + intros b. rewrite writers_map.
      rewrite (filter_ext _ (fun i => i =? t - b)).
      * unfold range. rewrite count_seq.
        destruct (Z.leb_spec (Z.of_nat 0) (t - b)),
                 (Z.ltb_spec (t - b) (Z.of_nat 0 + Z.of_nat (Z.to_nat (t - h + 1)))),
                 (Z.leb_spec (Z.min h t) b), (Z.leb_spec b (Z.max h t));
          cbn [andb]; try reflexivity; lia.
      * intros i. unfold covers. cbn [firstbit numbits].
        destruct (Z.leb_spec (t - i) b), (Z.ltb_spec b (t - i + 1)),
                 (Z.eqb_spec i (t - b)); cbn [andb]; try reflexivity; lia.
    + apply Forall_forall. intros d Hd.
      apply in_map_iff in Hd. destruct Hd as [i [<- _]]. now split.
Qed.

Lemma field_written_once_witness :
  writers (ops (fst (compile_assign 35 "r0[10:15]"))) 12 = 1%nat.
Proof.
  exact (proj1 (field_written_once 35 "r0[10:15]"
                  [(4%nat, "15"); (3%nat, "10"); (2%nat, "0"); (1%nat, "r")]
                  10 15 _ 41 eq_refl eq_refl eq_refl
                  (fun E => eq_ind "r" (fun s => match s with
                                                   | String "r" _ => True
                                                   | _ => False end) I "m" E)
                  eq_refl) 12).
Defined.

(* ================================================================== *)
(** ** White space around and between the lines *)

Lemma lstrip_blank (ws s : string) :
  blank ws = true -> Py.lstrip (ws ++ s) = Py.lstrip s.
Proof.
  unfold blank. induction ws as [|c ws IH]; [reflexivity|].
  cbn [all_chars append Py.lstrip]. intros H.
  apply andb_true_iff in H. destruct H as [Hc Hws]. rewrite Hc. now apply IH.
Qed.

Lemma rstrip_blank (ws : string) : blank ws = true -> Py.rstrip ws = "".
Proof.
  unfold blank. induction ws as [|c ws IH]; [reflexivity|].
  cbn [all_chars Py.rstrip]. intros H.
  apply andb_true_iff in H. destruct H as [Hc Hws].
  now rewrite (IH Hws), Hc.
Qed.

Lemma rstrip_app_blank (s ws : string) :
  blank ws = true -> Py.rstrip (s ++ ws) = Py.rstrip s.
Proof.
  intros H. induction s as [|c s IH]; [now apply rstrip_blank|].
  cbn [append Py.rstrip]. now rewrite IH.
Qed.

Lemma lstrip_all_blank (ws : string) : blank ws = true -> Py.lstrip ws = "".
Proof.
  unfold blank. induction ws as [|c ws IH]; [reflexivity|].
  cbn [all_chars Py.lstrip]. intros H.
  apply andb_true_iff in H. destruct H as [Hc Hws]. rewrite Hc. now apply IH.
Qed.

Lemma lstrip_app_blank (s ws : string) :
  blank ws = true ->
  Py.rstrip (Py.lstrip (s ++ ws)) = Py.rstrip (Py.lstrip s).
Proof.
  intros H. induction s as [|c s IH].
  - cbn [append]. now rewrite lstrip_all_blank.
  - cbn [append Py.lstrip]. destruct (Py.isspace c); [exact IH|].
    now apply (rstrip_app_blank (String c s)).
Qed.

Lemma strip_surrounded (ws1 ws2 s : string) :
  blank ws1 = true -> blank ws2 = true ->
  Py.strip (ws1 ++ s ++ ws2) = Py.strip s.
Proof.
  intros H1 H2. unfold Py.strip.
  now rewrite lstrip_blank, lstrip_app_blank.
Qed.

Lemma strip_blank (b : string) : blank b = true -> Py.strip b = "".
Proof.
  intros H. unfold Py.strip. now rewrite lstrip_all_blank.
Qed.

(** X7. The white space of the table is free: white space in front of and
    behind a line does not change anything the line does, and a line of
    white space only, put anywhere among the lines, changes neither the
    output nor the outcome of the script. *)
Theorem table_white_space_is_free :
  forall (env : option Z) (ws1 ws2 line : string) (before after : list string),
    blank ws1 = true ->
    blank ws2 = true ->
    compile_line env (ws1 ++ line ++ ws2) = compile_line env line
    /\ for_fold (before ++ ws1 :: after) compile_line env
       = for_fold (before ++ after) compile_line env.
Proof.
  intros env ws1 ws2 line before after H1 H2. split.
  - unfold compile_line. now rewrite strip_surrounded.
  - rewrite !for_fold_app. cbn [for_fold].
    destruct (for_fold before compile_line env) as [o [env1|e]]; cbn [bind];
      [|reflexivity].
    rewrite compile_line_blank by (now rewrite strip_blank).
    change (@nil Line, Ok env1) with (ret env1). now rewrite bind_ret_l.
Qed.

Lemma table_white_space_is_free_witness :
  compile_line None ("    " ++ line3 ++ String "009" " ")
  = compile_line None line3.
Proof.
  exact (proj1 (table_white_space_is_free None "    " (String "009" " ") line3
                  [] [] eq_refl eq_refl)).
Defined.

(* ================================================================== *)
(** ** The shape of the output *)

Lemma compile_assign_stmts (cursor : Z) (a : string) :
  forallb is_stmt (fst (compile_assign cursor a)) = true.
Proof.
  destruct (Re.rmatch FIELD_RE a) as [m|] eqn:Hm;
    [|now rewrite compile_assign_no_match].
  destruct (matched_field_numbers a m Hm) as [h [t [Hh [Ht _]]]].
  destruct (String.eqb_spec (text (Re.group m 1)) "m") as [Hc|Hc].
  - now rewrite (compile_assign_selector cursor a m h t Hm Hh Ht Hc).
  - destruct (Py.int (text (Re.group m 2))) as [e|] eqn:He;
      [|now rewrite (compile_assign_no_endpoint cursor a m h t Hm Hh Ht Hc He)].
    destruct (Z_le_gt_dec t h) as [Hle|Hgt].
    + now rewrite (compile_assign_forward cursor a m h t Hm Hh Ht e Hc He Hle).
    + assert (Hlt : h < t) by lia.
      rewrite (compile_assign_reverse cursor a m h t Hm Hh Ht e Hc He Hlt).
      cbn [fst forallb is_stmt andb]. rewrite forallb_app. cbn [forallb is_stmt andb].
      rewrite andb_true_r. apply forallb_forall. intros l Hl.
      apply in_map_iff in Hl. now destruct Hl as [i [<- _]].
Qed.

Lemma for_fold_assigns_stmts (assigns : list string) (cursor : Z) :
  forallb is_stmt (fst (for_fold assigns compile_assign cursor)) = true.
Proof.
  revert cursor. induction assigns as [|a assigns IH]; intros cursor;
    [reflexivity|].
  cbn [for_fold]. pose proof (compile_assign_stmts cursor a) as Ha.
  destruct (compile_assign cursor a) as [o1 [c1|e1]]; cbn [bind fst] in *;
    [|exact Ha].
  specialize (IH c1).
  destruct (for_fold assigns compile_assign c1) as [o2 r2]. cbn [fst] in *.
  now rewrite forallb_app, Ha, IH.
Qed.

(** What a line prints: nothing, or its label and statements, closed by
    the [break] exactly when the line compiles. *)
Lemma compile_line_shape (env : option Z) (line : string) out r :
  compile_line env line = (out, r) ->
  out = []
  \/ exists mode body,
       forallb is_stmt body = true
       /\ match r with
          | Ok _ => out = CaseLabel mode :: (body ++ [Break])
          | Raise _ => out = CaseLabel mode :: body
          end.
Proof.
  unfold compile_line.
  destruct (Py.is_empty (Py.strip line)); [intros H; injection H as <- _; now left|].
  destruct (Py.split (Py.strip line)) as [|mode_s [|assigns_s [|x l]]];
    try (intros H; injection H as <- _; now left).
  unfold py_int. destruct (Py.int mode_s) as [mode|];
    [|intros H; injection H as <- _; now left].
  rewrite bind_ret_l. cbn [print bind].
  pose proof (for_fold_assigns_stmts (Py.split_on "," assigns_s) 0) as Hs.
  destruct (for_fold (Py.split_on "," assigns_s) compile_assign 0)
    as [o [c|e]]; cbn [bind ret app fst] in *; intros H; injection H as <- <-;
    right; exists mode, o; split; try assumption; reflexivity.
Qed.

(** X8. When the script ends normally its output is the two header lines,
    then [case] blocks, then the closing brace; every block is one label,
    statements and comment lines only, and its own [break]: no label is
    left without a [break], so no case falls through into the next. *)
Theorem output_is_closed_case_blocks :
  forall (moderef : string) (out : list Line) (env : option Z),
    script moderef = (out, Ok env) ->
    exists blocks,
      out = SwitchMode :: OpenBrace :: (concat blocks ++ [CloseBrace])
      /\ Forall case_block blocks.
Proof.
  intros moderef out env H. unfold script in H. cbn [print bind] in H.
  destruct (for_fold (Py.splitlines moderef) compile_line None)
    as [o [e|x]] eqn:Hf; cbn [bind ret app] in H; [|discriminate H].
  injection H as <- _.
  assert (Hb : exists blocks, o = concat blocks /\ Forall case_block blocks).
  { revert Hf. generalize (@None Z) as env0. generalize (Py.splitlines moderef).
    clear. intros lines. revert o e.
    induction lines as [|l lines IH]; intros o e env0 Hf.
    - injection Hf as <- _. now exists [].
    - cbn [for_fold] in Hf. apply bind_ok_inv in Hf.
      destruct Hf as [o1 [e1 [o2 [Hl [Hrest ->]]]]].
      destruct (IH _ _ _ Hrest) as [blocks [-> Hblocks]].
      destruct (compile_line_shape _ _ _ _ Hl) as [-> | [mode [body [Hs ->]]]].
      + now exists blocks.
      + exists ((CaseLabel mode :: (body ++ [Break])) :: blocks).
        split; [reflexivity|]. constructor; [|exact Hblocks].
        now exists mode, body. }
  destruct Hb as [blocks [-> Hblocks]].
  exists blocks. split; [reflexivity|exact Hblocks].
Qed.

Lemma output_is_closed_case_blocks_witness :
  exists blocks,
    fst main = SwitchMode :: OpenBrace :: (concat blocks ++ [CloseBrace])
    /\ Forall case_block blocks.
Proof.
  refine (output_is_closed_case_blocks MODEREF (fst main) (Some 65) _).
  vm_compute. reflexivity.
Defined.

(* ================================================================== *)
(** ** All or nothing *)

(** X9. The script ends normally exactly when every line of the table, run
    through the loop body on its own, ends normally: one line that raises
    makes the whole script raise, and nothing else can. *)
Theorem script_ok_iff_lines_ok :
  forall (moderef : string),
    (exists out env, script moderef = (out, Ok env))
    <-> Forall compiles (Py.splitlines moderef).
Proof.
  intros moderef. split.
  - intros [out [env H]]. unfold script in H. cbn [print bind] in H.
    destruct (for_fold (Py.splitlines moderef) compile_line None)
      as [o [e|x]] eqn:Hf; cbn [bind ret app] in H; [|discriminate H].
    clear H. revert Hf. generalize (@None Z) as env0.
    generalize (Py.splitlines moderef). clear. intros lines. revert o e.
    induction lines as [|l lines IH]; intros o e env0 Hf; [constructor|].
    cbn [for_fold] in Hf. apply bind_ok_inv in Hf.
    destruct Hf as [o1 [e1 [o2 [Hl [Hrest _]]]]].
    constructor; [|now apply (IH _ _ _ Hrest)].
    destruct (Py.is_empty (Py.strip l)) eqn:E.
    + exists [], None. now apply compile_line_blank.
    + exists o1, e1. now rewrite (compile_line_env None env0).
  - intros H. destruct (for_fold_lines _ None H) as [env' Hf].
    unfold script. cbn [print bind]. rewrite Hf. cbn [bind ret app].
    eexists. eexists. reflexivity.
Qed.

Lemma script_ok_iff_lines_ok_witness :
  Forall compiles (Py.splitlines MODEREF).
Proof.
  refine (proj1 (script_ok_iff_lines_ok MODEREF) _).
  exists (fst main), (Some 65). vm_compute. reflexivity.
Defined.

(** X1. Among the 7-bit texts, the pattern accepts exactly those that begin
    with a letter, digit or underscore, at most one digit, and a bracketed
    number or pair of numbers; the groups are those pieces, and the text
    after the closing bracket is free. *)
Theorem field_match_iff :
  forall (a : string) (m : Re.captures),
    seven_bit a = true ->
    (Re.rmatch FIELD_RE a = Some m <->
     exists c g2 g3 g4 rest,
       a = field_text c g2 g3 g4 rest
       /\ Py.is_word c = true
       /\ digit01 g2 = true
       /\ digits1 g3 = true
       /\ match g4 with Some g => digits1 g = true | None => True end
       /\ m = field_captures c g2 g3 g4).
Proof. intros a m _. apply rmatch_field_text. Qed.

Lemma field_match_iff_witness :
  Re.rmatch FIELD_RE (field_text "b" "3" "10" (Some "15") " tail")
  = Some (field_captures "b" "3" "10" (Some "15")).
Proof.
  refine (proj2 (field_match_iff
                   (field_text "b" "3" "10" (Some "15") " tail") _ eq_refl) _).
  exists "b"%char, "3", "10", (Some "15"), " tail". repeat split.
Defined.

(* ================================================================== *)
(** ** What a statement can be *)

Lemma digit_val_range (d : ascii) :
  Py.is_digit d = true -> 0 <= Py.digit_val d <= 9.
Proof.
  intros H. apply is_digit_inv in H. cbn [In] in H.
  repeat (destruct H as [<-|H]; [cbv; split; discriminate|]). contradiction.
Qed.

Lemma compile_assign_stmt_ok (cursor : Z) (a : string) :
  Forall stmt_ok (ops (fst (compile_assign cursor a))).
Proof.
  destruct (Re.rmatch FIELD_RE a) as [m|] eqn:Hm;
    [|rewrite compile_assign_no_match by assumption; constructor].
  destruct (matched_field_numbers a m Hm) as [h [t [Hh [Ht [Hh0 Ht0]]]]].
  destruct (String.eqb_spec (text (Re.group m 1)) "m") as [Hc|Hc].
  { rewrite (compile_assign_selector cursor a m h t Hm Hh Ht Hc). constructor. }
  destruct (endpoint_text_cases a m Hm) as [[Hg He]|[d [Hg He]]].
  { rewrite (compile_assign_no_endpoint cursor a m h t Hm Hh Ht Hc He).
    constructor. }
  assert (Hchan : exists c, text (Re.group m 1) = String c ""
                            /\ Py.is_word c = true /\ c <> "m"%char).
  { pose proof Hm as Hm'. apply rmatch_field_text in Hm'.
    destruct Hm' as [c [g2 [g3 [g4 [rest [_ [Hw [_ [_ [_ E]]]]]]]]]].
    assert (E1 : text (Re.group m 1) = String c "")
      by (rewrite E; now destruct g4).
    exists c. split; [exact E1|]. split; [exact Hw|].
    intros ->. apply Hc. exact E1. }
  assert (Hd : Py.is_digit d = true).
  { pose proof Hm as Hm'. apply rmatch_field_text in Hm'.
    destruct Hm' as [c [g2 [g3 [g4 [rest [_ [_ [Hg2 [_ [_ E]]]]]]]]]].
    assert (E2 : text (Re.group m 2) = g2) by (rewrite E; now destruct g4).
    rewrite Hg in E2. subst g2. exact Hg2. }
  pose proof (digit_val_range d Hd) as Hrange.
  destruct (Z_le_gt_dec t h) as [Hle|Hgt].
  - rewrite (compile_assign_forward cursor a m h t Hm Hh Ht _ Hc He Hle).
    cbn [fst ops]. constructor; [|constructor].
    unfold stmt_ok. cbn [channel endpoint firstbit numbits].
    split; [exact Hchan|]. lia.
  - assert (Hlt : h < t) by lia.
    rewrite (compile_assign_reverse cursor a m h t Hm Hh Ht _ Hc He Hlt).
    cbn [fst ops]. rewrite ops_app, <- (map_map _ Extract), ops_map_extract.
    cbn [ops]. rewrite app_nil_r.
    apply Forall_forall. intros x Hx.
    apply in_map_iff in Hx. destruct Hx as [i [<- Hi]].
    apply in_range_iff in Hi.
    unfold stmt_ok. cbn [channel endpoint firstbit numbits].
    split; [exact Hchan|]. lia.
Qed.

Lemma for_fold_assigns_stmt_ok (assigns : list string) (cursor : Z) :
  Forall stmt_ok (ops (fst (for_fold assigns compile_assign cursor))).
Proof.
  revert cursor. induction assigns as [|a assigns IH]; intros cursor;
    [constructor|].
  cbn [for_fold]. pose proof (compile_assign_stmt_ok cursor a) as Ha.
  destruct (compile_assign cursor a) as [o1 [c1|e1]]; cbn [bind fst] in *;
    [|exact Ha].
  specialize (IH c1).
  destruct (for_fold assigns compile_assign c1) as [o2 r2]. cbn [fst] in *.
  rewrite ops_app. apply Forall_app. now split.
Qed.

Lemma compile_line_stmt_ok (env : option Z) (line : string) :
  Forall stmt_ok (ops (fst (compile_line env line))).
Proof.
  unfold compile_line.
  destruct (Py.is_empty (Py.strip line)); [constructor|].
  destruct (Py.split (Py.strip line)) as [|mode_s [|assigns_s [|x l]]];
    try constructor.
  unfold py_int. destruct (Py.int mode_s) as [mode|]; [|constructor].
  rewrite bind_ret_l. cbn [print bind].
  pose proof (for_fold_assigns_stmt_ok (Py.split_on "," assigns_s) 0) as Hs.
  destruct (for_fold (Py.split_on "," assigns_s) compile_assign 0)
    as [o [c|e]]; cbn [bind ret app fst ops] in *; [|exact Hs].
  rewrite ops_app. cbn [ops]. now rewrite app_nil_r.
Qed.

(** X10. Whatever table of 7-bit text the script is given, and whether it
    ends normally or not, every statement it prints writes to a channel
    named by one letter, digit or underscore other than [m] and to an
    endpoint from 0 to 9, with a shift that is not negative, and reads at
    least one bit. *)
Theorem statements_well_formed :
  forall (moderef : string),
    seven_bit moderef = true ->
    Forall stmt_ok (ops (fst (script moderef))).
Proof.
  intros moderef _. unfold script. cbn [print bind].
  assert (H : forall lines env,
             Forall stmt_ok (ops (fst (for_fold lines compile_line env)))).
  { induction lines as [|l lines IH]; intros env; [constructor|].
    cbn [for_fold]. pose proof (compile_line_stmt_ok env l) as Hl.
    destruct (compile_line env l) as [o1 [e1|x1]]; cbn [bind fst] in *;
      [|exact Hl].
    specialize (IH e1).
    destruct (for_fold lines compile_line e1) as [o2 r2]. cbn [fst] in *.
    rewrite ops_app. apply Forall_app. now split. }
  specialize (H (Py.splitlines moderef) None).
  destruct (for_fold (Py.splitlines moderef) compile_line None)
    as [o [e|x]]; cbn [bind ret app fst ops] in *; [|exact H].
  rewrite ops_app. cbn [ops]. now rewrite app_nil_r.
Qed.

Lemma statements_well_formed_witness :
  Forall stmt_ok (ops (fst main)).
Proof.
  refine (statements_well_formed MODEREF _).
  vm_compute. reflexivity.
Defined.

(* ================================================================== *)
(** ** A reversed range is its bits, one field each *)

Lemma one_bit_fields (c : string) (e t cursor : Z) :
  c <> "m" ->
  forall (k a : nat) (es : list string),
    Forall2 (fun i x => names_one_bit c e (t - i) x)
            (map Z.of_nat (seq a k)) es ->
    for_fold es compile_assign (cursor + Z.of_nat a)
    = (map (fun i => Extract (mkData c (cursor + i) e 1 (t - i)))
           (map Z.of_nat (seq a k)),
       Ok (cursor + Z.of_nat a + Z.of_nat k)).
Proof.
  intros Hc. induction k as [|k IH]; intros a es H.
  - inversion H; subst. cbn [seq map for_fold]. unfold ret.
    apply (f_equal2 pair); [reflexivity|apply f_equal; lia].
  - cbn [seq map] in H. inversion H as [|i x l es' Hx Hrest]; subst.
    destruct Hx as [m [Hm [Hh [Ht [Hch He]]]]].
    cbn [for_fold seq map].
    assert (Hc' : text (Re.group m 1) <> "m") by now rewrite Hch.
    rewrite (compile_assign_forward (cursor + Z.of_nat a) x m _ _ Hm Hh Ht e Hc' He)
      by lia.
    cbn [bind].
    replace (cursor + Z.of_nat a
             + (t - Z.of_nat a - (t - Z.of_nat a) + 1))
      with (cursor + Z.of_nat (S a)) by lia.
    rewrite (IH (S a) es' Hrest). rewrite Hch.
    replace (t - Z.of_nat a - (t - Z.of_nat a) + 1) with 1 by lia.
    cbn [app]. apply (f_equal2 pair); [reflexivity|apply f_equal; lia].
Qed.

(** X11. A reversed range stands for its bits named one by one from the
    higher number down: a field [h:t] with [h < t] prints the statements,
    and leaves the cursor where, the single-bit fields for bits [t],
    [t - 1], ..., [h] of the same channel and endpoint do, one after the
    other; only the two comment lines differ. *)
Theorem reversed_range_is_bit_list :
  forall (cursor : Z) (a : string) (m : Re.captures) (h t e : Z)
         (es : list string),
    Re.rmatch FIELD_RE a = Some m ->
    head_of m = Some h ->
    tail_of m = Some t ->
    h < t ->
    text (Re.group m 1) <> "m" ->
    Py.int (text (Re.group m 2)) = Some e ->
    Forall2 (fun i x => names_one_bit (text (Re.group m 1)) e (t - i) x)
            (range (t - h + 1)) es ->
    ops (fst (for_fold es compile_assign cursor))
    = ops (fst (compile_assign cursor a))
    /\ snd (for_fold es compile_assign cursor)
       = snd (compile_assign cursor a).
Proof.
  intros cursor a m h t e es Hm Hh Ht Hlt Hc He Hes.
  rewrite (compile_assign_reverse cursor a m h t Hm Hh Ht e Hc He Hlt).
  pose proof (one_bit_fields (text (Re.group m 1)) e t cursor Hc
                (Z.to_nat (t - h + 1)) 0 es Hes) as H.
  replace (cursor + Z.of_nat 0) with cursor in H by lia.
  rewrite H. cbn [fst snd ops]. split.
  - rewrite ops_app. cbn [ops]. now rewrite app_nil_r.
  - apply f_equal. lia.
Qed.

Lemma reversed_range_is_bit_list_witness :
  ops (fst (for_fold ["b0[12]"; "b0[11]"; "b0[10]"] compile_assign 55))
  = ops (fst (compile_assign 55 "b0[10:12]")).
Proof.
  refine (proj1 (reversed_range_is_bit_list 55 "b0[10:12]"
            [(4%nat, "12"); (3%nat, "10"); (2%nat, "0"); (1%nat, "b")]
            10 12 0 ["b0[12]"; "b0[11]"; "b0[10]"]
            eq_refl eq_refl eq_refl eq_refl _ eq_refl _)).
  - discriminate.
  - repeat constructor; eexists; repeat split; reflexivity.
Defined.
